(** * Documentation extractor: polling, page formatting and output writer

    A shallow embedding of the two scripts of the repository,
    [firecrawl-test-v2.py] (class [DocumentationCrawler] and its [main])
    and [firecrawl-test.py] (a single [main]), together with the
    properties of the polling loop, of the page formatter and of the
    output writer.

    The vendor client, the wall clock and the file system are the
    collaborators of the scripts.  They are modelled as an oracle [env]
    that answers the k-th call of each kind, and a [world] that counts the
    calls made so far and holds the files and the emitted log. *)

From Stdlib Require Import ZArith QArith Lqa String Ascii DecimalString.
From stdpp Require Import base option list gmap strings.

Set Warnings "-register-all".
Local Open Scope string_scope.
Local Open Scope list_scope.

(** ** Python values

    The JSON-shaped values the vendor client hands back.  Floating point
    numbers do not occur in the fields the scripts read (page counts are
    integers) and are left out. *)

Inductive pyval : Type :=
| PNone
| PBool (b : bool)
| PInt (z : Z)
| PStr (s : string)
| PList (l : list pyval)
| PDict (d : gmap string pyval).

(** The line feed of the templates and of the separator of [join]. *)
Definition LF : string := String "010" EmptyString.

(** Truth value of an object, as tested by [if x] and [not x]. *)
Definition truthy (v : pyval) : bool :=
  match v with
  | PNone => false
  | PBool b => b
  | PInt z => negb (z =? 0)%Z
  | PStr s => negb (s =? "")%string
  | PList l => negb (Nat.eqb (length l) 0)
  | PDict d => negb (Nat.eqb (size d) 0)
  end.

(** [bool] is a subclass of [int]: [True] counts as 1 in arithmetic. *)
Definition as_int (v : pyval) : option Z :=
  match v with
  | PInt z => Some z
  | PBool b => Some (Z.b2z b)
  | _ => None
  end.

(** [v == s] for a string literal [s]; values of other types are unequal
    to every string. *)
Definition py_eq_str (v : pyval) (s : string) : bool :=
  match v with
  | PStr x => (x =? s)%string
  | _ => false
  end.

(** [v == z] for an integer [z]. *)
Definition py_eq_int (v : pyval) (z : Z) : bool :=
  match as_int v with
  | Some x => (x =? z)%Z
  | None => false
  end.

Definition py_str_bool (b : bool) : string := if b then "True" else "False".

Definition py_str_int (z : Z) : string := NilZero.string_of_int (Z.to_int z).

(** What a replacement field [{v}] of an f-string produces.  A string is
    inserted as it is; the text of a list or of a dictionary is their
    [repr], which is left to the parameter [py_repr]. *)
Definition py_format (py_repr : pyval → string) (v : pyval) : string :=
  match v with
  | PNone => "None"
  | PBool b => py_str_bool b
  | PInt z => py_str_int z
  | PStr s => s
  | PList _ | PDict _ => py_repr v
  end.

(** [sep.join(l)] *)
Definition join (sep : string) (l : list string) : string := String.concat sep l.

(** ** Exceptions and results *)

Inductive exc_class := AttributeError | TypeError | KeyError | OSError | VendorError.

(** [SystemExit] derives from [BaseException], not from [Exception]:
    an [except Exception] clause lets it through. *)
Inductive exn :=
| Exception (c : exc_class)
| SystemExit (code : Z).

(** The outcome of running a piece of code: a value, a raised exception,
    or [OutOfFuel] when the polling loop was cut off while still running. *)
Inductive res (A : Type) : Type :=
| Ok (a : A)
| Raise (e : exn)
| OutOfFuel.
Arguments Ok {A} a.
Arguments Raise {A} e.
Arguments OutOfFuel {A}.

(** ** Log and standard output

    A log record keeps the level, the literal template of the message and
    the values interpolated into it. *)

Inductive level := INFO | WARNING | ERROR | STDOUT.

Inductive arg :=
| AVal (v : pyval)
| AExn (e : exn)
| ALen (n : nat)
| ASecs (t : Q)
| AKeys (ks : list string).

Record log_entry := LogEntry { lvl : level; template : string; args : list arg }.

(** ** The world and its oracle *)

Record world := World {
  fs : gmap string string;   (* path ↦ content of the file *)
  out : list log_entry;      (* log records and printed lines, oldest first *)
  ticks : nat;               (* calls of time.time() so far *)
  polls : nat;               (* calls of check_batch_scrape_status so far *)
  ios : nat                  (* file operations so far *)
}.

Record env := Env {
  (* the value of the k-th call of time.time(), in seconds *)
  time_time : nat → Q;
  (* app.crawl_url(...); None when the client raises *)
  crawl_url : option pyval;
  (* app.async_batch_scrape_urls(urls, options) *)
  async_batch_scrape_urls : list pyval → pyval → option pyval;
  (* the k-th call of app.check_batch_scrape_status(job_id) *)
  check_batch_scrape_status : pyval → nat → option pyval;
  (* whether the k-th file operation fails with an OSError *)
  io_fault : nat → bool
}.

Definition with_fs (f : gmap string string → gmap string string) (w : world) : world :=
  World (f (fs w)) (out w) (ticks w) (polls w) (ios w).
Definition with_out (f : list log_entry → list log_entry) (w : world) : world :=
  World (fs w) (f (out w)) (ticks w) (polls w) (ios w).
Definition next_tick (w : world) : world :=
  World (fs w) (out w) (S (ticks w)) (polls w) (ios w).
Definition next_poll (w : world) : world :=
  World (fs w) (out w) (ticks w) (S (polls w)) (ios w).
Definition next_io (w : world) : world :=
  World (fs w) (out w) (ticks w) (polls w) (S (ios w)).

(** ** State and exception monad *)

Definition M (A : Type) : Type := world → res A * world.

#[global] Instance M_ret : MRet M := λ A a w, (Ok a, w).

#[global] Instance M_bind : MBind M := λ A B f m w,
  match m w with
  | (Ok a, w') => f a w'
  | (Raise e, w') => (Raise e, w')
  | (OutOfFuel, w') => (OutOfFuel, w')
  end.

Definition raise {A} (e : exn) : M A := λ w, (Raise e, w).

Definition out_of_fuel {A} : M A := λ w, (OutOfFuel, w).

(** [try: body  except Exception as e: handler e] *)
Definition try_except {A} (body : M A) (handler : exn → M A) : M A := λ w,
  match body w with
  | (Raise (Exception c), w') => handler (Exception c) w'
  | r => r
  end.

(** [try: body  finally: cleanup]; an exception of the cleanup replaces
    the one of the body. *)
Definition try_finally {A} (body : M A) (cleanup : M unit) : M A := λ w,
  match body w with
  | (OutOfFuel, w') => (OutOfFuel, w')
  | (r, w') =>
      match cleanup w' with
      | (Ok _, w'') => (r, w'')
      | (Raise e, w'') => (Raise e, w'')
      | (OutOfFuel, w'') => (OutOfFuel, w'')
      end
  end.

(** [sys.exit(code)] *)
Definition sys_exit {A} (code : Z) : M A := raise (SystemExit code).

(** A call of the logger, or of [print] at level [STDOUT]. *)
Definition emit (l : level) (template : string) (args : list arg) : M unit := λ w,
  (Ok tt, with_out (λ o, o ++ [LogEntry l template args]) w).

(** [d.get(key, default)]; only dictionaries have the method. *)
Definition py_get (v : pyval) (key : string) (dflt : pyval) : M pyval :=
  match v with
  | PDict d => mret (default dflt (d !! key))
  | _ => raise (Exception AttributeError)
  end.

(** [v[key]] for a string key. *)
Definition py_getitem (v : pyval) (key : string) : M pyval :=
  match v with
  | PDict d =>
      match d !! key with
      | Some x => mret x
      | None => raise (Exception KeyError)
      end
  | _ => raise (Exception TypeError)
  end.

(** The items a [for] loop over [v] visits: the elements of a list, the
    keys of a dictionary, the characters of a string. *)
Definition py_iter (v : pyval) : M (list pyval) :=
  match v with
  | PList l => mret l
  | PDict d => mret (PStr <$> (map_to_list d).*1)
  | PStr s => mret ((λ c, PStr (String c EmptyString)) <$> list_ascii_of_string s)
  | _ => raise (Exception TypeError)
  end.

(** [len(v)] *)
Definition py_len (v : pyval) : M nat :=
  match v with
  | PList l => mret (length l)
  | PDict d => mret (size d)
  | PStr s => mret (String.length s)
  | _ => raise (Exception TypeError)
  end.

(** [v > z] for an integer literal [z] *)
Definition py_gt_int (v : pyval) (z : Z) : M bool :=
  match as_int v with
  | Some x => mret (z <? x)%Z
  | None => raise (Exception TypeError)
  end.

(** [v - z] for an integer literal [z]; the difference is an integer *)
Definition py_sub_int (v : pyval) (z : Z) : M Z :=
  match as_int v with
  | Some x => mret (x - z)%Z
  | None => raise (Exception TypeError)
  end.

(** [x > y] on clock values *)
Definition Qgtb (x y : Q) : bool := negb (Qle_bool x y).

(** for loop with an accumulator *)
Fixpoint for_each {A B} (body : B → A → M B) (items : list A) (acc : B) : M B :=
  match items with
  | [] => mret acc
  | x :: rest => acc' ← body acc x; for_each body rest acc'
  end.

Section Primitives.
Variable E : env.

(** [time.time()] *)
Definition now : M Q := λ w, (Ok (time_time E (ticks w)), next_tick w).

(** [time.sleep(secs)]: the time that passes shows in the later clock
    readings only. *)
Definition sleep (secs : Q) : M unit := mret tt.

Definition call_crawl_url : M pyval := λ w,
  match crawl_url E with
  | Some r => (Ok r, w)
  | None => (Raise (Exception VendorError), w)
  end.

Definition call_async_batch_scrape_urls (urls : list pyval) (options : pyval)
  : M pyval := λ w,
  match async_batch_scrape_urls E urls options with
  | Some r => (Ok r, w)
  | None => (Raise (Exception VendorError), w)
  end.

Definition call_check_batch_scrape_status (job_id : pyval) : M pyval := λ w,
  match check_batch_scrape_status E job_id (polls w) with
  | Some r => (Ok r, next_poll w)
  | None => (Raise (Exception VendorError), next_poll w)
  end.

(** One operation on the file system; it fails when the oracle says so. *)
Definition io_op (effect : world → world) : M unit := λ w,
  if io_fault E (ios w)
  then (Raise (Exception OSError), next_io w)
  else (Ok tt, effect (next_io w)).

(** [open(path, "w")] creates the file or truncates it. *)
Definition open_w (path : string) : M unit :=
  io_op (with_fs (λ m, <[path := ""]> m)).

(** [f.write(s)] appends to what was written since [open]. *)
Definition write (path : string) (s : string) : M unit :=
  io_op (with_fs (λ m, alter (λ c, c +:+ s) path m)).

Definition close (path : string) : M unit := io_op id.

(** [with open(path, "w") as f: body] *)
Definition with_open_w {A} (path : string) (body : M A) : M A :=
  open_w path;; try_finally body (close path).
End Primitives.

(** The fixed header of the output file, written in two calls. *)
Definition HEADER_TITLE : string := "# Technical Documentation Overview" +:+ LF +:+ LF.
Definition HEADER_CREDIT : string := "Generated with Firecrawl" +:+ LF +:+ LF.

(** The block of one page:
    [f"# {title}\nSource: {source_url}\n\n{content}\n\n---\n"] *)
Definition page_block (py_repr : pyval → string) (title source_url content : pyval) : string :=
  "# " +:+ py_format py_repr title +:+ LF +:+
  "Source: " +:+ py_format py_repr source_url +:+ LF +:+ LF +:+
  py_format py_repr content +:+ LF +:+ LF +:+ "---" +:+ LF.

(** The exit status of the process for the outcome of [main]: 0 when
    [main] returns, the code of [sys.exit], 1 for an exception nobody
    caught; none while [main] is still polling. *)
Definition exit_code (r : res unit) : option Z :=
  match r with
  | Ok _ => Some 0%Z
  | Raise (SystemExit code) => Some code
  | Raise (Exception _) => Some 1%Z
  | OutOfFuel => None
  end.

(** How the [while True] loop of the batch watcher is left, and what one
    pass through its body decides. *)
Inductive loop_exit :=
| Break (status total : pyval)   (* break: the variables used after the loop *)
| ReturnNone.                    (* return None *)

Inductive iteration :=
| Leave (e : loop_exit)
| Again (last_progress_time : Q).

(** ** firecrawl-test-v2.py *)
Module V2.

Definition BASE_URL : string := "https://docs.firecrawl.dev/".
Definition OUTPUT_FILE : string := "technical_documentation-extract.md".

Definition PROMPT : string :=
"Convert this technical documentation into clear, readable markdown.

                       Key Instructions:
                       1. Transform any JSON/dictionary data into natural language paragraphs
                       2. Keep code examples in proper markdown code blocks
                       3. Preserve important technical details but present them in a readable way
                       4. Use proper markdown headings (##) to organize content
                       5. Convert arrays/lists into proper markdown bullet points
                       
                       For example, instead of:
                       {'title': 'API Docs', 'parameters': [{'name': 'url', 'required': true}]}
                       
                       Write:
                       ## API Documentation
                       
                       This endpoint accepts the following parameters:
                       - url (required): The URL to process
                       
                       Keep the content technical but make it human-readable.".

Definition EXTRACT_OPTIONS : pyval :=
  PDict (<["formats" := PList [PStr "extract"]]>
        (<["extract" := PDict (<["prompt" := PStr PROMPT]> ∅)]> ∅)).

Definition max_wait_time : Q := 300.

Section DocumentationCrawler.
Variable E : env.
Variable py_repr : pyval → string.

(** [process_page], lines 58-76. *)
Definition process_page (page : pyval) : M (option string) :=
  try_except
    (extracted_content ← py_get page "extract" (PStr "");
     metadata ← py_get page "metadata" (PDict ∅);
     source_url ← py_get metadata "sourceURL" (PStr "Unknown URL");
     title ← py_get metadata "title" (PStr "Untitled");
     if negb (truthy extracted_content) then
       emit WARNING "No extracted content found for {source_url}" [AVal source_url];;
       mret None
     else
       mret (Some (page_block py_repr title source_url extracted_content)))
    (λ e,
       emit ERROR "Failed to process page: {str(e)}" [AExn e];;
       mret None).

(** [save_documentation], lines 78-90. *)
Definition save_documentation (content : list string) (output_file : string) : M bool :=
  try_except
    (with_open_w E output_file
       (write E output_file HEADER_TITLE;;
        write E output_file HEADER_CREDIT;;
        write E output_file (join LF content));;
     emit INFO "Documentation saved to {output_file}" [AVal (PStr output_file)];;
     mret true)
    (λ e,
       emit ERROR "Failed to save documentation: {str(e)}" [AExn e];;
       mret false).

(** One pass through the body of the [while True] loop, lines 111-137. *)
Definition poll_iteration (job_id : pyval) (start_time last_progress_time : Q)
  : M iteration :=
  status ← call_check_batch_scrape_status E job_id;
  completed ← py_get status "completed" (PInt 0);
  total ← py_get status "total" (PInt 0);
  emit INFO "Progress: {completed}/{total} pages" [AVal completed; AVal total];;
  state ← py_get status "status" PNone;
  if py_eq_str state "completed" then
    emit INFO "Batch extraction completed!" [];;
    mret (Leave (Break status total))
  else if py_eq_str state "failed" then
    emit ERROR "Batch extraction failed" [];;
    mret (Leave ReturnNone)
  else
    some_done ← py_gt_int completed 0;
    on_last_page ←
      (if some_done : bool
       then total_1 ← py_sub_int total 1; mret (py_eq_int completed total_1)
       else mret false);
    stuck_check ←
      (if on_last_page : bool then
         t ← now E;
         if Qgtb (t - last_progress_time) 120 then
           emit WARNING
             "Extraction appears stuck on last page, continuing with available results" [];;
           mret (Leave (Break status total))
         else mret (Again last_progress_time)
       else
         t ← now E;
         mret (Again t));
    match stuck_check with
    | Leave e => mret (Leave e)
    | Again last_progress_time' =>
        t ← now E;
        if Qgtb (t - start_time) max_wait_time then
          emit WARNING
            "Extraction exceeded maximum wait time, continuing with available results" [];;
          mret (Leave (Break status total))
        else
          sleep 5;;
          mret (Again last_progress_time')
    end.

(** The loop itself; [fuel] bounds the number of passes. *)
Fixpoint poll_loop (fuel : nat) (job_id : pyval) (start_time last_progress_time : Q)
  : M loop_exit :=
  match fuel with
  | O => out_of_fuel
  | S fuel' =>
      it ← poll_iteration job_id start_time last_progress_time;
      match it with
      | Leave e => mret e
      | Again last_progress_time' =>
          poll_loop fuel' job_id start_time last_progress_time'
      end
  end.

(** What follows the loop, lines 139-142. *)
Definition after_loop (start_time : Q) (e : loop_exit) : M (option (pyval * pyval)) :=
  match e with
  | ReturnNone => mret None
  | Break status total =>
      t ← now E;
      let elapsed_time := (t - start_time)%Q in
      total_credits ← py_get status "creditsUsed" (PInt 0);
      emit INFO "Successfully extracted {total} pages in {elapsed_time:.2f} seconds"
        [AVal total; ASecs elapsed_time];;
      data ← py_get status "data" (PList []);
      mret (Some (data, total_credits))
  end.

(** The loop and the code after it, from a given state of the loop. *)
Definition watch (fuel : nat) (job_id : pyval) (start_time last_progress_time : Q)
  : M (option (pyval * pyval)) :=
  e ← poll_loop fuel job_id start_time last_progress_time;
  after_loop start_time e.

(** [batch_extract_and_watch], lines 92-146. *)
Definition batch_extract_and_watch (fuel : nat) (urls : list pyval) (options : pyval)
  : M (option (pyval * pyval)) :=
  try_except
    (start_time ← now E;
     emit INFO "Starting batch extraction of {len(urls)} URLs" [ALen (length urls)];;
     batch_response ← call_async_batch_scrape_urls E urls options;
     success ← py_get batch_response "success" PNone;
     if negb (truthy success) then
       emit ERROR "Batch extraction failed to start" [];;
       mret None
     else
       job_id ← py_get batch_response "id" PNone;
       emit INFO "Batch job started with ID: {job_id}" [AVal job_id];;
       last_progress_time ← now E;
       watch fuel job_id start_time last_progress_time)
    (λ e,
       emit ERROR "Batch extraction failed with error: {str(e)}" [AExn e];;
       mret None).

(** The loop of [main] that collects the formatted pages, lines 216-219. *)
Definition collect (acc : list string) (page : pyval) : M (list string) :=
  content ← process_page page;
  match content with
  | Some s => if (s =? "")%string then mret acc else mret (acc ++ [s])
  | None => mret acc
  end.

(** [main], lines 148-232.  Building the crawler is taken to succeed. *)
Definition main (fuel : nat) : M unit :=
  emit INFO "Starting documentation extraction process..." [];;
  total_start_time ← now E;
  emit INFO "Crawling {BASE_URL} for all documentation URLs..." [AVal (PStr BASE_URL)];;
  crawl_response ← call_crawl_url E;
  success ← py_get crawl_response "success" PNone;
  (if negb (truthy success) then
     emit ERROR "Failed to crawl site for URLs" [];;
     sys_exit 1
   else mret tt);;
  data ← py_get crawl_response "data" (PList []);
  pages ← py_iter data;
  all_urls ← for_each
    (λ acc page,
       metadata ← py_getitem page "metadata";
       url ← py_getitem metadata "sourceURL";
       mret (acc ++ [url]))
    pages [];
  emit INFO "Found {len(all_urls)} pages to process" [ALen (length all_urls)];;
  extraction_result ← batch_extract_and_watch fuel all_urls EXTRACT_OPTIONS;
  match extraction_result with
  | None => sys_exit 1
  | Some (extracted_data, total_credits) =>
      pages ← py_iter extracted_data;
      processed_content ← for_each collect pages [];
      (if Nat.eqb (length processed_content) 0 then
         emit ERROR "No content was processed" [];;
         sys_exit 1
       else mret tt);;
      saved ← save_documentation processed_content OUTPUT_FILE;
      (if negb saved then sys_exit 1 else mret tt);;
      t ← now E;
      let total_time := (t - total_start_time)%Q in
      emit INFO "Total credits used: {total_credits}" [AVal total_credits];;
      emit INFO "Total extraction completed in {total_time:.2f} seconds" [ASecs total_time]
  end.
End DocumentationCrawler.

Section CrawlSite.
Variable E : env.

(** [self.app.crawl_url_and_watch(base_url, options)]: the updates the
    watcher yields, in order, for a crawl that comes to an end.  [None]
    stands for an exception, of the call itself or of the watcher at that
    point of the iteration. *)
Variable crawl_url_and_watch : string → pyval → option (list (option pyval)).

Definition call_crawl_url_and_watch (base_url : string) (options : pyval)
  : M (list (option pyval)) := λ w,
  match crawl_url_and_watch base_url options with
  | Some watcher => (Ok watcher, w)
  | None => (Raise (Exception VendorError), w)
  end.

(** [current_credits += credits], for the integer [current_credits] *)
Definition py_add_int (z : Z) (v : pyval) : M Z :=
  match as_int v with
  | Some x => mret (z + x)%Z
  | None => raise (Exception TypeError)
  end.

(** The loop over the updates, lines 35-48.  It returns [None] where the
    source returns from inside the loop, and the two accumulators where the
    loop runs to its end. *)
Fixpoint for_updates (watcher : list (option pyval))
  (crawl_data : list pyval) (current_credits : Z) : M (option (list pyval * Z)) :=
  match watcher with
  | [] => mret (Some (crawl_data, current_credits))
  | None :: _ => raise (Exception VendorError)
  | Some update :: rest =>
      type ← py_get update "type" PNone;
      if py_eq_str type "crawl.page" then
        page_data ← py_get update "data" (PList []);
        if truthy page_data then
          items ← py_iter page_data;
          let crawl_data := crawl_data ++ items in
          credits ← py_get update "creditsUsed" (PInt 0);
          current_credits ← py_add_int current_credits credits;
          emit INFO
            "Received page update. Total pages: {len(crawl_data)}, Current credits: {current_credits}"
            [ALen (length crawl_data); AVal (PInt current_credits)];;
          for_updates rest crawl_data current_credits
        else for_updates rest crawl_data current_credits
      else if py_eq_str type "crawl.completed" then
        emit INFO "Crawl completed!" [];;
        for_updates rest crawl_data current_credits
      else if py_eq_str type "crawl.failed" then
        error ← py_get update "error" PNone;
        emit ERROR "Crawl failed: {error}" [AVal error];;
        mret None
      else for_updates rest crawl_data current_credits
  end.

(** [crawl_site], lines 19-56. *)
Definition crawl_site (base_url : string) (options : pyval) : M (option (list pyval)) :=
  try_except
    (start_time ← now E;
     emit INFO "Starting crawl of {base_url}" [AVal (PStr base_url)];;
     watcher ← call_crawl_url_and_watch base_url options;
     r ← for_updates watcher [] 0;
     match r with
     | None => mret None
     | Some (crawl_data, _) =>
         t ← now E;
         let elapsed_time := (t - start_time)%Q in
         emit INFO "Successfully crawled {len(crawl_data)} pages in {elapsed_time:.2f} seconds"
           [ALen (length crawl_data); ASecs elapsed_time];;
         mret (Some crawl_data)
     end)
    (λ e,
       emit ERROR "Crawl failed with error: {str(e)}" [AExn e];;
       mret None).
End CrawlSite.

End V2.

(** ** firecrawl-test.py *)
Module V1.

Definition OUTPUT_FILE : string := "technical_documentation.md".

Section Script.
Variable E : env.
Variable py_repr : pyval → string.

(** The body of the loop over the crawled pages, lines 41-56. *)
Definition extract_page (all_extracted_content : list string) (page : pyval)
  : M (list string) :=
  match page with
  | PDict d =>
      markdown_content ← py_get page "markdown" (PStr "");
      metadata ← py_get page "metadata" (PDict ∅);
      source_url ← py_get metadata "sourceURL" (PStr "Unknown URL");
      title ← py_get metadata "title" (PStr "Untitled");
      if truthy markdown_content then
        let formatted_content := page_block py_repr title source_url markdown_content in
        emit STDOUT "Successfully processed content from {source_url}" [AVal source_url];;
        mret (all_extracted_content ++ [formatted_content])
      else
        emit STDOUT "No markdown content found for {source_url}" [AVal source_url];;
        emit STDOUT "Page content structure: {list(page.keys())}"
          [AKeys (map_to_list d).*1];;
        mret all_extracted_content
  | _ => mret all_extracted_content
  end.

(** Step 3 of [main], lines 59-67. *)
Definition save_step (all_extracted_content : list string) : M unit :=
  if negb (Nat.eqb (length all_extracted_content) 0) then
    with_open_w E OUTPUT_FILE
      (write E OUTPUT_FILE HEADER_TITLE;;
       write E OUTPUT_FILE HEADER_CREDIT;;
       write E OUTPUT_FILE (join LF all_extracted_content));;
    emit STDOUT
      "Extraction complete. Documentation saved in 'technical_documentation.md'" []
  else
    emit STDOUT "No content was extracted" [].

(** [main], lines 5-71.  Building the client (line 8) is taken to
    succeed. *)
Definition main : M unit :=
  try_except
    (emit STDOUT "Starting crawl..." [];;
     crawl_response ← call_crawl_url E;
     success ← py_get crawl_response "success" PNone;
     (if negb (truthy success) then
        emit STDOUT "Crawl failed" [];;
        sys_exit 1
      else mret tt);;
     crawl_data ← py_get crawl_response "data" (PList []);
     (if negb (truthy crawl_data) then
        emit STDOUT "No data found in crawl response" [];;
        sys_exit 1
      else mret tt);;
     n ← py_len crawl_data;
     emit STDOUT "Successfully crawled {len(crawl_data)} pages" [ALen n];;
     pages ← py_iter crawl_data;
     all_extracted_content ← for_each extract_page pages [];
     save_step all_extracted_content)
    (λ e,
       emit STDOUT "An error occurred: {str(e)}" [AExn e];;
       sys_exit 1).
End Script.

End V1.

(** ** Vocabulary of the statements *)

(** The fixed template of a page block, for a title, a source URL and a
    content that are strings. *)
Definition block_template (title url content : string) : string :=
  "# " +:+ title +:+ LF +:+ "Source: " +:+ url +:+ LF +:+ LF +:+
  content +:+ LF +:+ LF +:+ "---" +:+ LF.

(** The header of the output file. *)
Definition HEADER : string := HEADER_TITLE +:+ HEADER_CREDIT.

(** The content field [key] of the page is missing or empty. *)
Definition lacks (key : string) (d : gmap string pyval) : Prop :=
  truthy (default (PStr "") (d !! key)) = false.

(** The metadata of a page record: an object, or absent (then read as the
    empty object). *)
Definition metadata_of (d : gmap string pyval) : option (gmap string pyval) :=
  match default (PDict ∅) (d !! "metadata") with
  | PDict m => Some m
  | _ => None
  end.

(** The fields of a batch status. *)
Definition job_state (d : gmap string pyval) : pyval := default PNone (d !! "status").
Definition batch_data (d : gmap string pyval) : pyval := default (PList []) (d !! "data").
Definition credits_used (d : gmap string pyval) : pyval :=
  default (PInt 0) (d !! "creditsUsed").

(** The status is neither [completed] nor [failed]. *)
Definition running (d : gmap string pyval) : bool :=
  negb (py_eq_str (job_state d) "completed") && negb (py_eq_str (job_state d) "failed").

(** The page counts of a batch status, when both are integers. *)
Definition counts (d : gmap string pyval) : option (Z * Z) :=
  match as_int (default (PInt 0) (d !! "completed")),
        as_int (default (PInt 0) (d !! "total")) with
  | Some c, Some t => Some (c, t)
  | _, _ => None
  end.

(** None of the [n] file operations starting with operation [from] fails. *)
Definition no_io_fault (E : env) (from n : nat) : Prop :=
  ∀ k, k < n → io_fault E (from + k) = false.

(** The loop has gone around [n] times and is still running: the state
    in which it makes its next poll. *)
Fixpoint passes (E : env) (n : nat) (job_id : pyval) (start_time last_progress_time : Q)
  (w : world) : option (Q * world) :=
  match n with
  | O => Some (last_progress_time, w)
  | S n' =>
      match V2.poll_iteration E job_id start_time last_progress_time w with
      | (Ok (Again last_progress_time'), w') =>
          passes E n' job_id start_time last_progress_time' w'
      | _ => None
      end
  end.

(** The clock readings from reading [from] on never go back, and each
    [sleep(5)] of the loop lets five seconds pass: the loop takes two
    readings per pass and sleeps after the second. *)
Definition clock_advances (E : env) (from : nat) : Prop :=
  ∀ k,
    (time_time E (from + 2 * k) <= time_time E (from + 2 * k + 1))%Q ∧
    (time_time E (from + 2 * k + 1) + 5 <= time_time E (from + 2 * k + 2))%Q.

(** The outcomes of code that has no loop of its own: it returns, raises an
    exception, or leaves by [sys.exit(1)]. *)
Definition tame_result {A} (r : res A) : Prop :=
  match r with
  | Ok _ | Raise (Exception _) => True
  | Raise (SystemExit code) => code = 1%Z
  | OutOfFuel => False
  end.

Definition tame {A} (m : M A) : Prop := ∀ w, tame_result (m w).1.

(** The same for code that polls: it may also be cut off. *)
Definition exits_with_1_result {A} (r : res A) : Prop :=
  match r with
  | Raise (SystemExit code) => code = 1%Z
  | _ => True
  end.

Definition exits_with_1 {A} (m : M A) : Prop := ∀ w, exits_with_1_result (m w).1.


(** Code whose exceptions can all be caught: it returns or raises an
    [Exception]; with [cut] it may also be cut off while polling. *)
Definition contained_result {A} (cut : bool) (r : res A) : Prop :=
  match r with
  | Ok _ | Raise (Exception _) => True
  | Raise (SystemExit _) => False
  | OutOfFuel => cut = true
  end.

Definition contained {A} (cut : bool) (m : M A) : Prop :=
  ∀ w, contained_result cut (m w).1.

(** The type of an update of the crawl watcher. *)
Definition update_type (u : gmap string pyval) : pyval := default PNone (u !! "type").

(** The pages an update brings: those of the list under [data] when the
    update is a [crawl.page], none otherwise. *)
Definition update_pages (u : gmap string pyval) : list pyval :=
  if py_eq_str (update_type u) "crawl.page" then
    match default (PList []) (u !! "data") with
    | PList pages => pages
    | _ => []
    end
  else [].

(** An update the loop of [crawl_site] goes through without raising and
    without returning: it is no [crawl.failed], and when it is a
    [crawl.page] its data is a list and, unless that list is empty, its
    creditsUsed is an integer. *)
Definition passing_update (u : gmap string pyval) : Prop :=
  py_eq_str (update_type u) "crawl.failed" = false
  ∧ (py_eq_str (update_type u) "crawl.page" = true →
     ∃ pages,
       default (PList []) (u !! "data") = PList pages
       ∧ (pages = [] ∨ is_Some (as_int (default (PInt 0) (u !! "creditsUsed"))))).

(** The watcher yields the updates [us] without raising. *)
Definition yields (us : list (gmap string pyval)) : list (option pyval) :=
  (λ u, Some (PDict u)) <$> us.

(** The poll of the batch status number [k] makes the loop of
    [batch_extract_and_watch] raise: the client raises, the status is no
    object, or one of the page counts the loop computes with is no
    integer. *)
Definition poll_raises (E : env) (job_id : pyval) (k : nat) : Prop :=
  match check_batch_scrape_status E job_id k with
  | None => True
  | Some (PDict d) =>
      running d = true
      ∧ match as_int (default (PInt 0) (d !! "completed")) with
        | None => True
        | Some c => (0 < c)%Z ∧ as_int (default (PInt 0) (d !! "total")) = None
        end
  | Some _ => True
  end.

(** The state in which [batch_extract_and_watch], called in [w] for a job
    the vendor accepted with the answer [b], enters its loop: two clock
    readings and two log records later. *)
Definition loop_entry (urls : list pyval) (b : gmap string pyval) (w : world) : world :=
  next_tick
    (with_out
       (λ o, o ++ [LogEntry INFO "Batch job started with ID: {job_id}"
                     [AVal (default PNone (b !! "id"))]])
       (with_out
          (λ o, o ++ [LogEntry INFO "Starting batch extraction of {len(urls)} URLs"
                        [ALen (length urls)]])
          (next_tick w))).

(** A crawled page from which [main] of firecrawl-test-v2.py can read
    [page['metadata']['sourceURL']]. *)
Definition source_url (page : pyval) : option pyval :=
  match page with
  | PDict d =>
      match d !! "metadata" with
      | Some (PDict m) => m !! "sourceURL"
      | _ => None
      end
  | _ => None
  end.

(** A page the loop of firecrawl-test.py gets past: no object at all, or
    an object whose metadata is an object or absent. *)
Definition extractable (page : pyval) : Prop :=
  match page with
  | PDict d => is_Some (metadata_of d)
  | _ => True
  end.

(** The block [process_page] returns for a page, if any: its value does
    not depend on the world it runs in. *)
Definition block_of (py_repr : pyval → string) (page : pyval) : option string :=
  match (V2.process_page py_repr page (World ∅ [] 0 0 0)).1 with
  | Ok (Some s) => Some s
  | _ => None
  end.

(** ** Concrete inputs

    Small worlds, pages and vendor behaviours on which the statements
    below are exercised. *)

Definition dict (fields : list (string * pyval)) : pyval := PDict (list_to_map fields).

Definition fields_of (fields : list (string * pyval)) : gmap string pyval :=
  list_to_map fields.

(** A fresh process: no file, nothing logged, no call made. *)
Definition world0 : world := World ∅ [] 0 0 0.

(** A [repr] for lists and dictionaries that prints a placeholder. *)
Definition repr0 (v : pyval) : string := "...".

Definition meta_demo : gmap string pyval :=
  fields_of [("title", PStr "Intro"); ("sourceURL", PStr "https://docs.firecrawl.dev/intro")].

(** A page as the extraction of firecrawl-test-v2.py returns it. *)
Definition page_extract : gmap string pyval :=
  fields_of [("extract", PStr "Welcome"); ("metadata", PDict meta_demo)].

(** A page as the crawl of firecrawl-test.py returns it. *)
Definition page_markdown : gmap string pyval :=
  fields_of [("markdown", PStr "Welcome"); ("metadata", PDict meta_demo)].

(** A page with metadata and no content. *)
Definition page_empty : gmap string pyval :=
  fields_of [("metadata", PDict meta_demo)].

(** A page with content and no metadata. *)
Definition page_bare_extract : gmap string pyval := fields_of [("extract", PStr "Welcome")].

(** A world in which the output file of firecrawl-test-v2.py exists. *)
Definition world_old_file : world :=
  World (<[V2.OUTPUT_FILE := "stale"]> ∅) [] 0 0 0.

(** A clock whose k-th reading is 3k seconds: a pass of the polling loop
    takes six seconds. *)
Definition clock3 (k : nat) : Q := inject_Z (3 * Z.of_nat k).

(** A slower clock: a minute between two readings. *)
Definition clock60 (k : nat) : Q := inject_Z (60 * Z.of_nat k).

(** A batch status that carries one extracted page. *)
Definition status_demo (state : string) (completed total : Z) : gmap string pyval :=
  fields_of [("status", PStr state); ("completed", PInt completed);
             ("total", PInt total); ("data", PList [PDict page_extract]);
             ("creditsUsed", PInt completed)].

Definition job_demo : pyval := PStr "job-1".

Definition started_demo : pyval := dict [("success", PBool true); ("id", job_demo)].

(** A crawl that found one page. *)
Definition crawl_demo : pyval :=
  dict [("success", PBool true); ("data", PList [PDict page_markdown])].

(** A crawl that found one page, which has no content. *)
Definition crawl_no_content : pyval :=
  dict [("success", PBool true); ("data", PList [PDict page_empty])].

(** A crawl that failed. *)
Definition crawl_failed : pyval := dict [("success", PBool false)].

(** The state in which [batch_extract_and_watch] enters its loop when it
    is called in [world0]. *)
Definition world_loop : world := World ∅ [] 2 0 0.

(** The job is completed at the third poll. *)
Definition E_completes : env :=
  Env clock3 (Some crawl_demo) (λ _ _, Some started_demo)
    (λ _ k, Some (PDict (if (k <? 2)%nat then status_demo "scraping" 1 3
                         else status_demo "completed" 3 3)))
    (λ _, false).

(** The job stays at four pages of five. *)
Definition E_last_page : env :=
  Env clock60 (Some crawl_demo) (λ _ _, Some started_demo)
    (λ _ _, Some (PDict (status_demo "scraping" 4 5)))
    (λ _, false).

(** The job stays at two pages of five. *)
Definition E_slow : env :=
  Env clock60 (Some crawl_demo) (λ _ _, Some started_demo)
    (λ _ _, Some (PDict (status_demo "scraping" 2 5)))
    (λ _, false).

(** The job has one page, stays at none of one for 25 polls, and then
    fails. *)
Definition E_none_done : env :=
  Env clock3 (Some crawl_demo) (λ _ _, Some started_demo)
    (λ _ k, Some (PDict (if (k <? 25)%nat then status_demo "scraping" 0 1
                         else status_demo "failed" 0 1)))
    (λ _, false).

(** A completed batch whose only page has no content. *)
Definition status_no_content : pyval :=
  dict [("status", PStr "completed"); ("completed", PInt 1); ("total", PInt 1);
        ("data", PList [PDict page_empty]); ("creditsUsed", PInt 1)].

(** The crawl finds one page without content; the extraction completes at
    once and returns that page. *)
Definition E_no_content : env :=
  Env clock3 (Some crawl_no_content) (λ _ _, Some started_demo)
    (λ _ _, Some status_no_content)
    (λ _, false).

(** The crawl fails. *)
Definition E_crawl_failed : env :=
  Env clock3 (Some crawl_failed) (λ _ _, None) (λ _ _, None) (λ _, false).

(** Everything succeeds but the file cannot be opened. *)
Definition E_read_only : env :=
  Env clock3 (Some crawl_demo) (λ _ _, Some started_demo)
    (λ _ _, Some (PDict (status_demo "completed" 1 1)))
    (λ _, true).

(** Updates of the crawl watcher. *)
Definition update_page (pages : list pyval) (credits : Z) : gmap string pyval :=
  fields_of [("type", PStr "crawl.page"); ("data", PList pages);
             ("creditsUsed", PInt credits)].

Definition update_completed : gmap string pyval :=
  fields_of [("type", PStr "crawl.completed")].

Definition update_failed : gmap string pyval :=
  fields_of [("type", PStr "crawl.failed"); ("error", PStr "rate limit")].

(** A watcher that yields a page, the end of the crawl, and one more
    page. *)
Definition watcher_demo (base_url : string) (options : pyval)
  : option (list (option pyval)) :=
  Some (yields [update_page [PDict page_markdown] 1; update_completed;
                update_page [PDict page_empty] 1]).

(** A watcher that yields a page and then the failure of the crawl. *)
Definition watcher_failed (base_url : string) (options : pyval)
  : option (list (option pyval)) :=
  Some (yields [update_page [PDict page_markdown] 1]
        ++ Some (PDict update_failed)
           :: [Some (PDict (update_page [PDict page_empty] 1))]).

(** A watcher that yields a page and then raises. *)
Definition watcher_broken (base_url : string) (options : pyval)
  : option (list (option pyval)) :=
  Some (yields [update_page [PDict page_markdown] 1] ++ None :: []).

(** The answer of the vendor that accepts the job. *)
Definition started_fields : gmap string pyval :=
  fields_of [("success", PBool true); ("id", job_demo)].

(** The job fails at once. *)
Definition E_job_fails : env :=
  Env clock60 (Some crawl_demo) (λ _ _, Some started_demo)
    (λ _ _, Some (PDict (status_demo "failed" 0 1)))
    (λ _, false).

(** The job is accepted but its status cannot be polled. *)
Definition E_poll_raises : env :=
  Env clock60 (Some crawl_demo) (λ _ _, Some started_demo) (λ _ _, None) (λ _, false).

(** The crawl finds a page that has no metadata. *)
Definition crawl_no_url_fields : gmap string pyval :=
  fields_of [("success", PBool true); ("data", PList [PDict page_bare_extract])].

Definition E_no_url : env :=
  Env clock60 (Some (PDict crawl_no_url_fields)) (λ _ _, Some started_demo)
    (λ _ _, Some (PDict (status_demo "completed" 1 1)))
    (λ _, false).

(** A page with content whose metadata is null. *)
Definition page_null_metadata : gmap string pyval :=
  fields_of [("markdown", PStr "Welcome"); ("metadata", PNone)].

Definition crawl_null_metadata_fields : gmap string pyval :=
  fields_of [("success", PBool true);
             ("data", PList [PDict page_markdown; PDict page_null_metadata])].

Definition E_null_metadata : env :=
  Env clock60 (Some (PDict crawl_null_metadata_fields)) (λ _ _, None) (λ _ _, None)
    (λ _, false).

(** A crawl that succeeds and finds nothing. *)
Definition crawl_empty_fields : gmap string pyval :=
  fields_of [("success", PBool true); ("data", PList [])].

Definition E_empty_crawl : env :=
  Env clock60 (Some (PDict crawl_empty_fields)) (λ _ _, None) (λ _ _, None)
    (λ _, false).

(** The fields of [crawl_failed]. *)
Definition crawl_failed_fields : gmap string pyval := fields_of [("success", PBool false)].

(** * Properties *)

(** ** Running monadic code *)

Ltac run :=
  unfold mbind, M_bind, mret, M_ret, raise, sys_exit, out_of_fuel, emit;
  cbn beta iota delta [default id fst snd].

Lemma bind_ok {A B} (m : M A) (f : A → M B) w a w' :
  m w = (Ok a, w') → (m ≫= f) w = f a w'.
Proof. intros H. unfold mbind, M_bind. now rewrite H. Qed.

Lemma bind_raise {A B} (m : M A) (f : A → M B) w e w' :
  m w = (Raise e, w') → (m ≫= f) w = (Raise e, w').
Proof. intros H. unfold mbind, M_bind. now rewrite H. Qed.

Lemma bind_inv_ok {A B} (m : M A) (f : A → M B) w b w' :
  (m ≫= f) w = (Ok b, w') → ∃ a w1, m w = (Ok a, w1) ∧ f a w1 = (Ok b, w').
Proof.
  unfold mbind, M_bind. destruct (m w) as [[a|e|] w1]; intros H; try discriminate.
  eauto.
Qed.

Lemma truthy_str s : s ≠ "" → truthy (PStr s) = true.
Proof.
  intros Hs. simpl. destruct (String.eqb_spec s ""); [contradiction|reflexivity].
Qed.

Lemma page_block_strings py_repr title url content :
  page_block py_repr (PStr title) (PStr url) (PStr content)
  = block_template title url content.
Proof. reflexivity. Qed.

Lemma metadata_of_absent d : d !! "metadata" = None → metadata_of d = Some ∅.
Proof. unfold metadata_of. now intros ->. Qed.

Lemma metadata_of_object d m : d !! "metadata" = Some (PDict m) → metadata_of d = Some m.
Proof. unfold metadata_of. now intros ->. Qed.

(** ** Loops with an accumulator *)

Lemma for_each_app {A B} (body : B → A → M B) l1 l2 acc w :
  for_each body (l1 ++ l2) acc w = (for_each body l1 acc ≫= for_each body l2) w.
Proof.
  revert acc w. induction l1 as [|x l1 IH]; intros acc w; simpl.
  - reflexivity.
  - unfold mbind, M_bind in *.
    destruct (body acc x w) as [[acc'|e|] w1]; [apply IH|reflexivity..].
Qed.

(** A loop whose body yields the same value from every world yields the
    same accumulator from every world. *)
Lemma for_each_value {A B} (body : B → A → M B) :
  (∀ acc x w w', (body acc x w).1 = (body acc x w').1) →
  ∀ items acc w w', (for_each body items acc w).1 = (for_each body items acc w').1.
Proof.
  intros Hbody items. induction items as [|x items IH]; intros acc w w'; simpl.
  - reflexivity.
  - unfold mbind, M_bind. specialize (Hbody acc x w w').
    destruct (body acc x w) as [r1 w1], (body acc x w') as [r2 w2];
      simpl in Hbody; subst r2.
    destruct r1; [apply IH|reflexivity..].
Qed.

(** An item on which the body leaves the accumulator alone can be taken
    out of the list. *)
Lemma for_each_skip {A B} (body : B → A → M B) x :
  (∀ acc x w w', (body acc x w).1 = (body acc x w').1) →
  (∀ acc w, (body acc x w).1 = Ok acc) →
  ∀ pre post acc w,
    (for_each body (pre ++ x :: post) acc w).1 = (for_each body (pre ++ post) acc w).1.
Proof.
  intros Hval Hskip pre post acc w. rewrite !for_each_app.
  unfold mbind, M_bind.
  destruct (for_each body pre acc w) as [[acc'|e|] w1]; try reflexivity.
  simpl. unfold mbind, M_bind. specialize (Hskip acc' w1).
  destruct (body acc' x w1) as [r w2]; simpl in Hskip; subst r.
  apply for_each_value, Hval.
Qed.

(** ** Page formatting *)

Section Pages.
Context (py_repr : pyval → string).

(** *** [process_page] of firecrawl-test-v2.py *)

Lemma process_page_content d m x w :
  d !! "extract" = Some x → truthy x = true → metadata_of d = Some m →
  V2.process_page py_repr (PDict d) w =
    (Ok (Some (page_block py_repr (default (PStr "Untitled") (m !! "title"))
                 (default (PStr "Unknown URL") (m !! "sourceURL")) x)), w).
Proof.
  intros Hx Ht Hm. unfold metadata_of in Hm.
  unfold V2.process_page, try_except, py_get. rewrite Hx.
  destruct (default (PDict ∅) (d !! "metadata")); try discriminate.
  injection Hm as ->. run. now rewrite Ht.
Qed.

Lemma process_page_lacks d w :
  lacks "extract" d → (V2.process_page py_repr (PDict d) w).1 = Ok None.
Proof.
  unfold lacks. intros Hx. unfold V2.process_page, try_except, py_get.
  destruct (default (PDict ∅) (d !! "metadata")); run; try reflexivity.
  now rewrite Hx.
Qed.

(** What [process_page] returns does not depend on the world. *)
Lemma process_page_value page w w' :
  (V2.process_page py_repr page w).1 = (V2.process_page py_repr page w').1.
Proof.
  unfold V2.process_page, try_except, py_get.
  destruct page; run; try reflexivity.
  destruct (default (PDict ∅) (d !! "metadata")); run; try reflexivity.
  destruct (negb _); reflexivity.
Qed.

(** [process_page] never raises: every exception is caught inside. *)
Lemma process_page_returns page w : ∃ r, (V2.process_page py_repr page w).1 = Ok r.
Proof.
  unfold V2.process_page, try_except, py_get.
  destruct page; run; eauto.
  destruct (default (PDict ∅) (d !! "metadata")); run; eauto.
  destruct (negb _); eauto.
Qed.

Lemma collect_value acc page w w' :
  (V2.collect py_repr acc page w).1 = (V2.collect py_repr acc page w').1.
Proof.
  unfold V2.collect, mbind, M_bind.
  pose proof (process_page_value page w w') as H.
  destruct (V2.process_page py_repr page w) as [r1 w1],
           (V2.process_page py_repr page w') as [r2 w2]; simpl in H; subst r2.
  destruct r1 as [[s|]|e|]; try reflexivity.
  destruct (s =? ""); reflexivity.
Qed.

Lemma collect_lacks d acc w :
  lacks "extract" d → (V2.collect py_repr acc (PDict d) w).1 = Ok acc.
Proof.
  intros Hx. unfold V2.collect, mbind, M_bind.
  pose proof (process_page_lacks d w Hx) as H.
  destruct (V2.process_page py_repr (PDict d) w) as [r w1]; simpl in H; subst r.
  reflexivity.
Qed.

(** *** The loop body of firecrawl-test.py *)

Lemma extract_page_content d m x acc w :
  d !! "markdown" = Some x → truthy x = true → metadata_of d = Some m →
  (V1.extract_page py_repr acc (PDict d) w).1 =
    Ok (acc ++ [page_block py_repr (default (PStr "Untitled") (m !! "title"))
                  (default (PStr "Unknown URL") (m !! "sourceURL")) x]).
Proof.
  intros Hx Ht Hm. unfold metadata_of in Hm.
  unfold V1.extract_page, py_get. rewrite Hx.
  destruct (default (PDict ∅) (d !! "metadata")); try discriminate.
  injection Hm as ->. run. now rewrite Ht.
Qed.

Lemma extract_page_lacks d acc w :
  lacks "markdown" d → is_Some (metadata_of d) →
  (V1.extract_page py_repr acc (PDict d) w).1 = Ok acc.
Proof.
  unfold lacks, metadata_of. intros Hx [m Hm]. unfold V1.extract_page, py_get.
  destruct (default (PDict ∅) (d !! "metadata")); try discriminate.
  run. now rewrite Hx.
Qed.

Lemma extract_page_value acc page w w' :
  (V1.extract_page py_repr acc page w).1 = (V1.extract_page py_repr acc page w').1.
Proof.
  unfold V1.extract_page, py_get.
  destruct page; run; try reflexivity.
  destruct (default (PDict ∅) (d !! "metadata")); run; try reflexivity.
  destruct (truthy _); reflexivity.
Qed.

(** C4. A page record whose content field (extract for firecrawl-test-v2.py,
    markdown for firecrawl-test.py) holds a non-empty string and whose
    metadata holds a title and a source URL is formatted to exactly
    "# " + title + "\nSource: " + url + "\n\n" + content + "\n\n---\n". *)
Theorem C4_block_follows_template
  (d m : gmap string pyval) (title url content : string) :
  content ≠ "" →
  d !! "metadata" = Some (PDict m) →
  m !! "title" = Some (PStr title) →
  m !! "sourceURL" = Some (PStr url) →
  (d !! "extract" = Some (PStr content) →
     ∀ w, V2.process_page py_repr (PDict d) w
          = (Ok (Some (block_template title url content)), w))
  ∧ (d !! "markdown" = Some (PStr content) →
     ∀ acc w, (V1.extract_page py_repr acc (PDict d) w).1
              = Ok (acc ++ [block_template title url content])).
Proof.
  intros Hc Hm Ht Hu. apply metadata_of_object in Hm. split; intros Hx *.
  - rewrite (process_page_content d m (PStr content) w Hx (truthy_str _ Hc) Hm).
    now rewrite Ht, Hu.
  - rewrite (extract_page_content d m (PStr content) acc w Hx (truthy_str _ Hc) Hm).
    now rewrite Ht, Hu.
Qed.

(** C5, as amended.  Each script reads one content field: a page record
    with a non-empty extract field is formatted by process_page of
    firecrawl-test-v2.py, and a page record with a non-empty markdown
    field by the loop of firecrawl-test.py, whatever its title and source
    URL are. *)
Theorem C5_own_content_field_suffices
  (d m : gmap string pyval) (content : string) :
  content ≠ "" →
  metadata_of d = Some m →
  let block :=
    page_block py_repr (default (PStr "Untitled") (m !! "title"))
      (default (PStr "Unknown URL") (m !! "sourceURL")) (PStr content) in
  (d !! "extract" = Some (PStr content) →
     ∀ w, V2.process_page py_repr (PDict d) w = (Ok (Some block), w))
  ∧ (d !! "markdown" = Some (PStr content) →
     ∀ acc w, (V1.extract_page py_repr acc (PDict d) w).1 = Ok (acc ++ [block])).
Proof.
  intros Hc Hm block. split; intros Hx *.
  - now apply process_page_content; [|apply truthy_str|].
  - now apply extract_page_content; [|apply truthy_str|].
Qed.

(** C6. A page record whose content field is missing or empty gives no
    block, and the loop over the pages goes on as if the page were not in
    the list: the blocks collected from the pages before and after it are
    the same. *)
Theorem C6_page_without_content_is_skipped
  (d : gmap string pyval) (pre post : list pyval) (acc : list string) (w : world) :
  (lacks "extract" d →
     (V2.process_page py_repr (PDict d) w).1 = Ok None
     ∧ (for_each (V2.collect py_repr) (pre ++ PDict d :: post) acc w).1
       = (for_each (V2.collect py_repr) (pre ++ post) acc w).1)
  ∧ (lacks "markdown" d → is_Some (metadata_of d) →
     (V1.extract_page py_repr acc (PDict d) w).1 = Ok acc
     ∧ (for_each (V1.extract_page py_repr) (pre ++ PDict d :: post) acc w).1
       = (for_each (V1.extract_page py_repr) (pre ++ post) acc w).1).
Proof.
  split.
  - intros Hx. split; [now apply process_page_lacks|].
    apply for_each_skip; [apply collect_value|].
    intros; now apply collect_lacks.
  - intros Hx Hm. split; [now apply extract_page_lacks|].
    apply for_each_skip; [apply extract_page_value|].
    intros; now apply extract_page_lacks.
Qed.

(** C10. A page record with non-empty content whose metadata, title or
    source URL is missing is still formatted in the fixed template, with
    'Untitled' for a missing title and 'Unknown URL' for a missing
    source URL. *)
Theorem C10_defaults_for_missing_metadata
  (d m : gmap string pyval) (title url content : string) :
  content ≠ "" →
  metadata_of d = Some m →
  m !! "title" = Some (PStr title) ∨ (m !! "title" = None ∧ title = "Untitled") →
  m !! "sourceURL" = Some (PStr url)
    ∨ (m !! "sourceURL" = None ∧ url = "Unknown URL") →
  (d !! "extract" = Some (PStr content) →
     ∀ w, V2.process_page py_repr (PDict d) w
          = (Ok (Some (block_template title url content)), w))
  ∧ (d !! "markdown" = Some (PStr content) →
     ∀ acc w, (V1.extract_page py_repr acc (PDict d) w).1
              = Ok (acc ++ [block_template title url content])).
Proof.
  intros Hc Hm Ht Hu.
  assert (default (PStr "Untitled") (m !! "title") = PStr title) as Et
    by (destruct Ht as [->|[-> ->]]; reflexivity).
  assert (default (PStr "Unknown URL") (m !! "sourceURL") = PStr url) as Eu
    by (destruct Hu as [->|[-> ->]]; reflexivity).
  split; intros Hx *.
  - rewrite (process_page_content d m (PStr content) w Hx (truthy_str _ Hc) Hm).
    now rewrite Et, Eu.
  - rewrite (extract_page_content d m (PStr content) acc w Hx (truthy_str _ Hc) Hm).
    now rewrite Et, Eu.
Qed.
End Pages.

(** The template at work on a page of each script. *)
Lemma C4_witness :
  V2.process_page repr0 (PDict page_extract) world0
    = (Ok (Some (block_template "Intro" "https://docs.firecrawl.dev/intro" "Welcome")),
       world0)
  ∧ (V1.extract_page repr0 [] (PDict page_markdown) world0).1
    = Ok [block_template "Intro" "https://docs.firecrawl.dev/intro" "Welcome"].
Proof.
  split.
  - apply (C4_block_follows_template repr0 page_extract meta_demo
             "Intro" "https://docs.firecrawl.dev/intro" "Welcome");
      first [discriminate | reflexivity].
  - apply (C4_block_follows_template repr0 page_markdown meta_demo
             "Intro" "https://docs.firecrawl.dev/intro" "Welcome");
      first [discriminate | reflexivity].
Defined.

(** C5 as stated fails: a page that has a markdown field and no extract
    field is skipped by firecrawl-test-v2.py, and a page that has an
    extract field and no markdown field is skipped by firecrawl-test.py. *)
Lemma C5_counterexample_other_field_is_not_read :
  page_markdown !! "markdown" = Some (PStr "Welcome")
  ∧ (V2.process_page repr0 (PDict page_markdown) world0).1 = Ok None
  ∧ page_extract !! "extract" = Some (PStr "Welcome")
  ∧ (V1.extract_page repr0 [] (PDict page_extract) world0).1 = Ok [].
Proof. repeat split. Qed.

Lemma C5_witness :
  V2.process_page repr0 (PDict page_bare_extract) world0
    = (Ok (Some (block_template "Untitled" "Unknown URL" "Welcome")), world0).
Proof.
  apply (proj1 (C5_own_content_field_suffices repr0 page_bare_extract ∅ "Welcome"
                  ltac:(discriminate) eq_refl)).
  reflexivity.
Defined.

Lemma C6_witness :
  (V2.process_page repr0 (PDict page_empty) world0).1 = Ok None
  ∧ (for_each (V2.collect repr0) ([PDict page_extract] ++ PDict page_empty :: []) [] world0).1
    = (for_each (V2.collect repr0) ([PDict page_extract] ++ []) [] world0).1.
Proof.
  apply (C6_page_without_content_is_skipped repr0 page_empty
           [PDict page_extract] [] [] world0).
  reflexivity.
Defined.

Lemma C10_witness :
  V2.process_page repr0 (PDict page_bare_extract) world0
    = (Ok (Some (block_template "Untitled" "Unknown URL" "Welcome")), world0).
Proof.
  apply (C10_defaults_for_missing_metadata repr0 page_bare_extract ∅
           "Untitled" "Unknown URL" "Welcome");
    first [discriminate | reflexivity | right; split; reflexivity].
Defined.

(** ** The output writer *)

Section Writer.
Context (E : env).

Lemma no_io_fault_5 from :
  no_io_fault E from 5 ↔
  io_fault E from = false ∧ io_fault E (S from) = false
  ∧ io_fault E (S (S from)) = false ∧ io_fault E (S (S (S from))) = false
  ∧ io_fault E (S (S (S (S from)))) = false.
Proof.
  unfold no_io_fault. split.
  - intros H.
    pose proof (H 0 ltac:(lia)) as H0. pose proof (H 1 ltac:(lia)) as H1.
    pose proof (H 2 ltac:(lia)) as H2. pose proof (H 3 ltac:(lia)) as H3.
    pose proof (H 4 ltac:(lia)) as H4.
    rewrite Nat.add_0_r in H0.
    replace (from + 1) with (S from) in H1 by lia.
    replace (from + 2) with (S (S from)) in H2 by lia.
    replace (from + 3) with (S (S (S from))) in H3 by lia.
    replace (from + 4) with (S (S (S (S from)))) in H4 by lia.
    auto.
  - intros (H0 & H1 & H2 & H3 & H4) k Hk.
    destruct k as [|[|[|[|[|k]]]]]; [..|lia].
    + now rewrite Nat.add_0_r.
    + now replace (from + 1) with (S from) by lia.
    + now replace (from + 2) with (S (S from)) by lia.
    + now replace (from + 3) with (S (S (S from))) by lia.
    + now replace (from + 4) with (S (S (S (S from)))) by lia.
Qed.

(** What the file holds after it was opened and written three times. *)
Lemma written_file (m : gmap string string) path a b c :
  alter (λ s, s +:+ c) path
    (alter (λ s, s +:+ b) path (alter (λ s, s +:+ a) path (<[path := ""]> m))) !! path
  = Some ((a +:+ b) +:+ c).
Proof. now rewrite !lookup_alter_eq, lookup_insert_eq. Qed.

Lemma written_file_others (m : gmap string string) path a b c p :
  p ≠ path →
  alter (λ s, s +:+ c) path
    (alter (λ s, s +:+ b) path (alter (λ s, s +:+ a) path (<[path := ""]> m))) !! p
  = m !! p.
Proof. intros Hp. now rewrite !lookup_alter_ne, lookup_insert_ne. Qed.

Lemma no_io_fault_dec from : no_io_fault E from 5 ∨ ¬ no_io_fault E from 5.
Proof.
  rewrite no_io_fault_5.
  destruct (io_fault E from), (io_fault E (S from)), (io_fault E (S (S from))),
    (io_fault E (S (S (S from)))), (io_fault E (S (S (S (S from)))));
    first [left; repeat split; reflexivity | right; intros (? & ? & ? & ? & ?); discriminate].
Qed.

(** The [with] block of both writers when no operation fails. *)
Lemma with_open_w_writes path a b c w :
  no_io_fault E (ios w) 5 →
  ∃ w',
    with_open_w E path (write E path a;; write E path b;; write E path c) w
      = (Ok tt, w')
    ∧ fs w' !! path = Some ((a +:+ b) +:+ c)
    ∧ (∀ p, p ≠ path → fs w' !! p = fs w !! p)
    ∧ out w' = out w.
Proof.
  intros (H0 & H1 & H2 & H3 & H4)%no_io_fault_5.
  unfold with_open_w, try_finally, open_w, write, close, io_op. run.
  rewrite H0. cbn. rewrite H1. cbn. rewrite H2. cbn. rewrite H3. cbn. rewrite H4.
  eexists. split; [reflexivity|]. cbn. split; [apply written_file|].
  split; [|reflexivity]. intros p Hp. now apply written_file_others.
Qed.

(** The [with] block when one of its operations fails: the error of the
    first failing operation, or that of [close], comes out. *)
Lemma with_open_w_fails path a b c w :
  ¬ no_io_fault E (ios w) 5 →
  ∃ w',
    with_open_w E path (write E path a;; write E path b;; write E path c) w
      = (Raise (Exception OSError), w')
    ∧ out w' = out w.
Proof.
  rewrite no_io_fault_5.
  unfold with_open_w, try_finally, open_w, write, close, io_op. run.
  destruct (io_fault E (ios w)); cbn; [eauto|].
  destruct (io_fault E (S (ios w))); cbn.
  { destruct (io_fault E (S (S (ios w)))); cbn; eauto. }
  destruct (io_fault E (S (S (ios w)))); cbn.
  { destruct (io_fault E (S (S (S (ios w))))); cbn; eauto. }
  destruct (io_fault E (S (S (S (ios w))))); cbn.
  { destruct (io_fault E (S (S (S (S (ios w)))))); cbn; eauto. }
  destruct (io_fault E (S (S (S (S (ios w)))))); cbn; [eauto|].
  intros H. exfalso. apply H. repeat split.
Qed.

(** Every way [save_documentation] can go. *)
Lemma save_documentation_outcome
  (content : list string) (output_file : string) (w : world) :
  ∃ saved w',
    V2.save_documentation E content output_file w = (Ok saved, w')
    ∧ (saved = true ↔ no_io_fault E (ios w) 5)
    ∧ (saved = true →
       fs w' !! output_file = Some (HEADER +:+ join LF content)
       ∧ ∀ p, p ≠ output_file → fs w' !! p = fs w !! p)
    ∧ (saved = false →
       last (out w')
       = Some (LogEntry ERROR "Failed to save documentation: {str(e)}"
                 [AExn (Exception OSError)])).
Proof.
  unfold V2.save_documentation, try_except.
  destruct (no_io_fault_dec (ios w)) as [Hio|Hio].
  - destruct (with_open_w_writes output_file HEADER_TITLE HEADER_CREDIT
                (join LF content) w Hio) as (w1 & Hrun & Hfile & Hothers & _).
    rewrite (bind_ok _ _ _ _ _ Hrun). run.
    do 2 eexists. split; [reflexivity|]. cbn.
    split; [tauto|]. split; [auto|discriminate].
  - destruct (with_open_w_fails output_file HEADER_TITLE HEADER_CREDIT
                (join LF content) w Hio) as (w1 & Hrun & _).
    rewrite (bind_raise _ _ _ _ _ Hrun). run.
    do 2 eexists. split; [reflexivity|]. cbn.
    split; [split; [discriminate|contradiction]|].
    split; [discriminate|]. intros _. apply last_snoc.
Qed.

(** Step 3 of firecrawl-test.py: with a block to write it writes the file
    or raises; without one it leaves the files alone and returns. *)
Lemma save_step_outcome (content : list string) (w : world) :
  ∃ r w',
    V1.save_step E content w = (r, w')
    ∧ (content = [] → r = Ok tt ∧ fs w' = fs w)
    ∧ (content ≠ [] → no_io_fault E (ios w) 5 →
       r = Ok tt
       ∧ fs w' !! V1.OUTPUT_FILE = Some (HEADER +:+ join LF content)
       ∧ ∀ p, p ≠ V1.OUTPUT_FILE → fs w' !! p = fs w !! p)
    ∧ (content ≠ [] → ¬ no_io_fault E (ios w) 5 → r = Raise (Exception OSError)).
Proof.
  unfold V1.save_step. destruct content as [|b content]; cbn [length Nat.eqb negb].
  { run. do 2 eexists. split; [reflexivity|]. repeat split; congruence. }
  destruct (no_io_fault_dec (ios w)) as [Hio|Hio].
  - destruct (with_open_w_writes V1.OUTPUT_FILE HEADER_TITLE HEADER_CREDIT
                (join LF (b :: content)) w Hio) as (w1 & Hrun & Hfile & Hothers & _).
    rewrite (bind_ok _ _ _ _ _ Hrun). run.
    do 2 eexists. split; [reflexivity|]. cbn.
    split; [discriminate|]. split; [auto|contradiction].
  - destruct (with_open_w_fails V1.OUTPUT_FILE HEADER_TITLE HEADER_CREDIT
                (join LF (b :: content)) w Hio) as (w1 & Hrun & _).
    rewrite (bind_raise _ _ _ _ _ Hrun).
    do 2 eexists. split; [reflexivity|].
    split; [discriminate|]. split; [contradiction|auto].
Qed.

(** C8. When no file operation fails, the file that the writer leaves
    holds exactly the header followed by the blocks joined with line
    feeds, in their order, whatever the file held before; the other files
    are as they were.  firecrawl-test.py writes only when there is a
    block. *)
Theorem C8_output_round_trip (content : list string) (output_file : string) (w : world) :
  no_io_fault E (ios w) 5 →
  (∃ w',
      V2.save_documentation E content output_file w = (Ok true, w')
      ∧ fs w' !! output_file = Some (HEADER +:+ join LF content)
      ∧ ∀ p, p ≠ output_file → fs w' !! p = fs w !! p)
  ∧ (content ≠ [] →
     ∃ w',
       V1.save_step E content w = (Ok tt, w')
       ∧ fs w' !! V1.OUTPUT_FILE = Some (HEADER +:+ join LF content)
       ∧ ∀ p, p ≠ V1.OUTPUT_FILE → fs w' !! p = fs w !! p).
Proof.
  intros Hio. split.
  - destruct (save_documentation_outcome content output_file w)
      as (saved & w' & Hrun & Hiff & Hfile & _).
    apply Hiff in Hio as ->. exists w'. split; [exact Hrun|]. now apply Hfile.
  - intros Hne.
    destruct (save_step_outcome content w) as (r & w' & Hrun & _ & Hfile & _).
    destruct (Hfile Hne Hio) as (-> & ?). eauto.
Qed.


(** C9. [save_documentation] never lets an exception out: it returns
    True when the five file operations succeed, and when one of them
    fails it logs the error and returns False. *)
Theorem C9_save_catches_write_failures
  (content : list string) (output_file : string) (w : world) :
  ∃ saved w',
    V2.save_documentation E content output_file w = (Ok saved, w')
    ∧ (saved = true ↔ no_io_fault E (ios w) 5)
    ∧ (saved = false →
       last (out w')
       = Some (LogEntry ERROR "Failed to save documentation: {str(e)}"
                 [AExn (Exception OSError)])).
Proof.
  destruct (save_documentation_outcome content output_file w)
    as (saved & w' & Hrun & Hiff & _ & Hlog).
  eauto.
Qed.
End Writer.

(** An old file is replaced. *)
Lemma C8_witness :
  ∃ w',
    V2.save_documentation E_completes ["one"; "two"] V2.OUTPUT_FILE world_old_file
      = (Ok true, w')
    ∧ fs w' !! V2.OUTPUT_FILE = Some (HEADER +:+ join LF ["one"; "two"])
    ∧ ∀ p, p ≠ V2.OUTPUT_FILE → fs w' !! p = fs world_old_file !! p.
Proof.
  apply (C8_output_round_trip E_completes ["one"; "two"] V2.OUTPUT_FILE world_old_file).
  intros k _. reflexivity.
Defined.

(** ** The polling loop *)

#[local] Arguments Qgtb : simpl never.
#[local] Arguments Qminus : simpl never.
#[local] Arguments time_time : simpl never.
#[local] Arguments V2.watch : simpl never.

Lemma Qgtb_true x y : Qgtb x y = true ↔ (y < x)%Q.
Proof.
  unfold Qgtb. rewrite negb_true_iff. split.
  - intros H. apply Qnot_le_lt. intros Hle. apply Qle_bool_iff in Hle. congruence.
  - intros H. destruct (Qle_bool x y) eqn:Hb; [|reflexivity].
    apply Qle_bool_iff in Hb. exfalso. apply (Qlt_not_le _ _ H Hb).
Qed.

Lemma Qgtb_false x y : Qgtb x y = false ↔ (x <= y)%Q.
Proof.
  unfold Qgtb. rewrite negb_false_iff. apply Qle_bool_iff.
Qed.

Section Polling.
Context (E : env).

Lemma running_states d :
  running d = true →
  py_eq_str (job_state d) "completed" = false ∧ py_eq_str (job_state d) "failed" = false.
Proof.
  unfold running. intros [H1 H2]%andb_true_iff.
  now apply negb_true_iff in H1, H2.
Qed.

Lemma counts_ints d c t :
  counts d = Some (c, t) →
  as_int (default (PInt 0) (d !! "completed")) = Some c
  ∧ as_int (default (PInt 0) (d !! "total")) = Some t.
Proof.
  unfold counts.
  destruct (as_int (default (PInt 0) (d !! "completed"))),
           (as_int (default (PInt 0) (d !! "total"))); intros [= -> ->] || discriminate.
  auto.
Qed.

Lemma poll_iteration_completed job start lp w d :
  check_batch_scrape_status E job (polls w) = Some (PDict d) →
  job_state d = PStr "completed" →
  ∃ w', V2.poll_iteration E job start lp w
        = (Ok (Leave (Break (PDict d) (default (PInt 0) (d !! "total")))), w')
        ∧ polls w' = S (polls w) ∧ ticks w' = ticks w ∧ fs w' = fs w.
Proof.
  intros Hs Hc. unfold V2.poll_iteration, call_check_batch_scrape_status, py_get.
  run. rewrite Hs. fold (job_state d). rewrite Hc. cbn. eauto.
Qed.

Lemma after_loop_break start d total w :
  ∃ w', V2.after_loop E start (Break (PDict d) total) w
        = (Ok (Some (batch_data d, credits_used d)), w')
        ∧ polls w' = polls w ∧ fs w' = fs w.
Proof. unfold V2.after_loop, now, py_get. run. eauto. Qed.

Lemma watch_leave fuel job start lp w e w1 :
  V2.poll_iteration E job start lp w = (Ok (Leave e), w1) →
  V2.watch E (S fuel) job start lp w = V2.after_loop E start e w1.
Proof.
  intros H. unfold V2.watch. cbn [V2.poll_loop].
  unfold mbind, M_bind in *. now rewrite H.
Qed.

Lemma poll_loop_passes n fuel job start lp0 w0 lp w :
  passes E n job start lp0 w0 = Some (lp, w) →
  V2.poll_loop E (n + fuel) job start lp0 w0 = V2.poll_loop E fuel job start lp w.
Proof.
  revert lp0 w0. induction n as [|n IH]; intros lp0 w0; cbn [passes].
  - now intros [= -> ->].
  - intros H. cbn [Nat.add V2.poll_loop]. unfold mbind, M_bind.
    destruct (V2.poll_iteration E job start lp0 w0) as [[[e|lp1]|e|] w1];
      try discriminate.
    now apply IH.
Qed.

Lemma watch_passes n fuel job start lp0 w0 lp w :
  passes E n job start lp0 w0 = Some (lp, w) →
  V2.watch E (n + fuel) job start lp0 w0 = V2.watch E fuel job start lp w.
Proof.
  intros H. unfold V2.watch, mbind, M_bind.
  now rewrite (poll_loop_passes n fuel job start lp0 w0 lp w H).
Qed.

(** A status that is still running, on the last page, with the stall
    timer past 120 seconds. *)
Lemma poll_iteration_stuck job start lp w d c t :
  check_batch_scrape_status E job (polls w) = Some (PDict d) →
  running d = true → counts d = Some (c, t) →
  (0 < c)%Z → c = (t - 1)%Z →
  (120 < time_time E (ticks w) - lp)%Q →
  ∃ w', V2.poll_iteration E job start lp w
        = (Ok (Leave (Break (PDict d) (default (PInt 0) (d !! "total")))), w')
        ∧ polls w' = S (polls w) ∧ ticks w' = S (ticks w) ∧ fs w' = fs w.
Proof.
  intros Hs [Hc Hf]%running_states [Hic Hit]%counts_ints Hpos Heq Hlate.
  unfold V2.poll_iteration, call_check_batch_scrape_status, py_get,
    py_gt_int, py_sub_int, py_eq_int, now.
  run. rewrite Hs. fold (job_state d). rewrite Hc, Hf, Hic, Hit. cbn.
  replace (0 <? c)%Z with true by (symmetry; now apply Z.ltb_lt).
  replace (c =? t - 1)%Z with true by (symmetry; now apply Z.eqb_eq).
  cbn. apply Qgtb_true in Hlate. rewrite Hlate. eauto.
Qed.

(** A status that is still running when the clock is past the overall
    limit. *)
Lemma poll_iteration_timeout job start lp w d c t :
  check_batch_scrape_status E job (polls w) = Some (PDict d) →
  running d = true → counts d = Some (c, t) →
  (300 < time_time E (S (ticks w)) - start)%Q →
  ∃ w', V2.poll_iteration E job start lp w
        = (Ok (Leave (Break (PDict d) (default (PInt 0) (d !! "total")))), w')
        ∧ polls w' = S (polls w) ∧ fs w' = fs w.
Proof.
  intros Hs [Hc Hf]%running_states [Hic Hit]%counts_ints Hlate.
  apply Qgtb_true in Hlate.
  unfold V2.poll_iteration, call_check_batch_scrape_status, py_get,
    py_gt_int, py_sub_int, py_eq_int, now, sleep, V2.max_wait_time.
  run. rewrite Hs. fold (job_state d). rewrite Hc, Hf, Hic, Hit. cbn.
  destruct (0 <? c)%Z; cbn.
  - destruct (c =? t - 1)%Z; cbn.
    + destruct (Qgtb _ 120); cbn; [eauto|]. rewrite Hlate. eauto.
    + rewrite Hlate. eauto.
  - rewrite Hlate. eauto.
Qed.

(** A pass that goes around took two clock readings, the second of
    them within the overall limit. *)
Lemma poll_iteration_again job start lp w lp' w' :
  V2.poll_iteration E job start lp w = (Ok (Again lp'), w') →
  ticks w' = S (S (ticks w)) ∧ polls w' = S (polls w) ∧ fs w' = fs w
  ∧ (time_time E (S (ticks w)) - start <= 300)%Q.
Proof.
  unfold V2.poll_iteration, call_check_batch_scrape_status, py_get,
    py_gt_int, py_sub_int, py_eq_int, now, sleep, V2.max_wait_time.
  run.
  destruct (check_batch_scrape_status E job (polls w)) as [[| | | | |d]|];
    try discriminate.
  fold (job_state d).
  destruct (py_eq_str (job_state d) "completed"); [discriminate|].
  destruct (py_eq_str (job_state d) "failed"); [discriminate|].
  destruct (as_int (default (PInt 0) (d !! "completed"))) as [c|]; [|discriminate].
  cbn.
  destruct (0 <? c)%Z; cbn.
  - destruct (as_int (default (PInt 0) (d !! "total"))) as [t|]; [|discriminate].
    cbn. destruct (c =? t - 1)%Z; cbn.
    + destruct (Qgtb _ 120); cbn; [discriminate|].
      destruct (Qgtb _ 300) eqn:Hq; [discriminate|].
      intros [= <- <-]. cbn. apply Qgtb_false in Hq. auto.
    + destruct (Qgtb _ 300) eqn:Hq; [discriminate|].
      intros [= <- <-]. cbn. apply Qgtb_false in Hq. auto.
  - destruct (Qgtb _ 300) eqn:Hq; [discriminate|].
    intros [= <- <-]. cbn. apply Qgtb_false in Hq. auto.
Qed.

(** One pass never runs out of fuel: only the loop does. *)
Lemma poll_iteration_fuel_free job start lp w :
  (V2.poll_iteration E job start lp w).1 ≠ OutOfFuel.
Proof.
  unfold V2.poll_iteration, call_check_batch_scrape_status, py_get,
    py_gt_int, py_sub_int, py_eq_int, now, sleep, V2.max_wait_time.
  run.
  destruct (check_batch_scrape_status E job (polls w)) as [[| | | | |d]|];
    try discriminate.
  fold (job_state d).
  destruct (py_eq_str (job_state d) "completed"); [discriminate|].
  destruct (py_eq_str (job_state d) "failed"); [discriminate|].
  destruct (as_int (default (PInt 0) (d !! "completed"))) as [c|]; [|discriminate].
  cbn. destruct (0 <? c)%Z; cbn.
  - destruct (as_int (default (PInt 0) (d !! "total"))) as [t|]; [|discriminate].
    cbn. destruct (c =? t - 1)%Z; cbn.
    + destruct (Qgtb _ 120); cbn; [discriminate|].
      destruct (Qgtb _ 300); discriminate.
    + destruct (Qgtb _ 300); discriminate.
  - destruct (Qgtb _ 300); discriminate.
Qed.

Lemma clock_advances_next from :
  clock_advances E from → clock_advances E (S (S from)).
Proof.
  intros H k. specialize (H (S k)).
  replace (from + 2 * S k) with (S (S from) + 2 * k) in H by lia.
  replace (from + 2 * S k + 1) with (S (S from) + 2 * k + 1) in H by lia.
  replace (from + 2 * S k + 2) with (S (S from) + 2 * k + 2) in H by lia.
  exact H.
Qed.

Lemma clock_advances_first from :
  clock_advances E from →
  (time_time E from <= time_time E (S from))%Q
  ∧ (time_time E (S from) + 5 <= time_time E (S (S from)))%Q.
Proof.
  intros H. specialize (H 0).
  replace (from + 2 * 0) with from in H by lia.
  replace (from + 1) with (S from) in H by lia.
  replace (from + 2) with (S (S from)) in H by lia.
  exact H.
Qed.

Lemma poll_loop_within_budget spare job start :
  ∀ lp w,
    clock_advances E (ticks w) →
    (start + 300 < time_time E (ticks w) + 5 * inject_Z (Z.of_nat spare))%Q →
    (V2.poll_loop E (S spare) job start lp w).1 ≠ OutOfFuel.
Proof.
  induction spare as [|spare IH]; intros lp w Hclock Hbudget.
  - cbn [V2.poll_loop]. unfold mbind, M_bind.
    pose proof (poll_iteration_fuel_free job start lp w) as Hfree.
    pose proof (poll_iteration_again job start lp w) as Hagain.
    destruct (V2.poll_iteration E job start lp w) as [[[e|lp']|e|] w1];
      try discriminate; [|now elim Hfree].
    exfalso. destruct (Hagain lp' w1 eq_refl) as (_ & _ & _ & Hin).
    destruct (clock_advances_first _ Hclock) as [H01 _].
    change (inject_Z (Z.of_nat 0)) with 0%Q in Hbudget. lra.
  - remember (S spare) as fuel. cbn [V2.poll_loop]. unfold mbind, M_bind.
    pose proof (poll_iteration_fuel_free job start lp w) as Hfree.
    pose proof (poll_iteration_again job start lp w) as Hagain.
    destruct (V2.poll_iteration E job start lp w) as [[[e|lp']|e|] w1];
      try discriminate; [|now elim Hfree].
    destruct (Hagain lp' w1 eq_refl) as (Hticks & _ & _ & Hin).
    subst fuel. apply IH.
    + rewrite Hticks. now apply clock_advances_next.
    + rewrite Hticks. destruct (clock_advances_first _ Hclock) as [H01 H12].
      rewrite Nat2Z.inj_succ, <- Z.add_1_r, inject_Z_plus in Hbudget.
      change (inject_Z 1) with 1%Q in Hbudget. lra.
Qed.

(** The wait is bounded: under a clock that never goes back and lets
    five seconds pass at each [sleep(5)], the loop is over after at most
    62 polls, whatever the vendor reports. *)
Theorem polling_is_bounded (fuel : nat) job start lp w :
  clock_advances E (ticks w) →
  (start <= time_time E (ticks w))%Q →
  (62 ≤ fuel)%nat →
  (V2.poll_loop E fuel job start lp w).1 ≠ OutOfFuel.
Proof.
  intros Hclock Hstart Hfuel. destruct fuel as [|spare]; [lia|].
  apply poll_loop_within_budget; [assumption|].
  assert (61 <= Z.of_nat spare)%Z as Hz by lia.
  apply (Qle_lt_trans _ (time_time E (ticks w) + 300)); [lra|].
  assert (inject_Z 61 <= inject_Z (Z.of_nat spare))%Q as Hq
    by (rewrite <- Zle_Qle; exact Hz).
  change (inject_Z 61) with 61%Q in Hq. lra.
Qed.

(** C1. When the status polled after [n] passes is completed, the loop
    ends with that poll and the data and the creditsUsed of that status
    are returned. *)
Theorem C1_completed_status_ends_polling n fuel job start lp0 w0 lp w d :
  passes E n job start lp0 w0 = Some (lp, w) →
  check_batch_scrape_status E job (polls w) = Some (PDict d) →
  job_state d = PStr "completed" →
  ∃ w',
    V2.watch E (n + S fuel) job start lp0 w0
      = (Ok (Some (batch_data d, credits_used d)), w')
    ∧ polls w' = S (polls w).
Proof.
  intros Hn Hs Hc. rewrite (watch_passes _ _ _ _ _ _ _ _ Hn).
  destruct (poll_iteration_completed job start lp w d Hs Hc) as (w1 & Hit & Hp & _).
  rewrite (watch_leave _ _ _ _ _ _ _ Hit).
  destruct (after_loop_break start d (default (PInt 0) (d !! "total")) w1)
    as (w' & -> & Hp' & _).
  exists w'. split; [reflexivity|congruence].
Qed.

(** While the progress is on the last page the stall timer is kept. *)
Lemma stall_timer_kept job start lp w d c t lp' w' :
  check_batch_scrape_status E job (polls w) = Some (PDict d) →
  counts d = Some (c, t) → (0 < c)%Z → c = (t - 1)%Z →
  V2.poll_iteration E job start lp w = (Ok (Again lp'), w') →
  lp' = lp.
Proof.
  intros Hs [Hic Hit]%counts_ints Hpos Heq.
  unfold V2.poll_iteration, call_check_batch_scrape_status, py_get,
    py_gt_int, py_sub_int, py_eq_int, now, sleep, V2.max_wait_time.
  run. rewrite Hs. fold (job_state d).
  destruct (py_eq_str (job_state d) "completed"); [discriminate|].
  destruct (py_eq_str (job_state d) "failed"); [discriminate|].
  rewrite Hic, Hit. cbn.
  replace (0 <? c)%Z with true by (symmetry; now apply Z.ltb_lt).
  replace (c =? t - 1)%Z with true by (symmetry; now apply Z.eqb_eq).
  cbn. destruct (Qgtb _ 120); cbn; [discriminate|].
  destruct (Qgtb _ 300); [discriminate|]. now intros [= <- _].
Qed.

(** Anywhere else the stall timer is set to the clock reading of the
    pass. *)
Lemma stall_timer_reset job start lp w d c t lp' w' :
  check_batch_scrape_status E job (polls w) = Some (PDict d) →
  counts d = Some (c, t) → ¬ ((0 < c)%Z ∧ c = (t - 1)%Z) →
  V2.poll_iteration E job start lp w = (Ok (Again lp'), w') →
  lp' = time_time E (ticks w).
Proof.
  intros Hs [Hic Hit]%counts_ints Hnot.
  unfold V2.poll_iteration, call_check_batch_scrape_status, py_get,
    py_gt_int, py_sub_int, py_eq_int, now, sleep, V2.max_wait_time.
  run. rewrite Hs. fold (job_state d).
  destruct (py_eq_str (job_state d) "completed"); [discriminate|].
  destruct (py_eq_str (job_state d) "failed"); [discriminate|].
  rewrite Hic, Hit. cbn.
  destruct (Z.ltb_spec 0 c); cbn.
  - destruct (Z.eqb_spec c (t - 1)); cbn; [tauto|].
    destruct (Qgtb _ 300); [discriminate|]. now intros [= <- _].
  - destruct (Qgtb _ 300); [discriminate|]. now intros [= <- _].
Qed.

(** [batch_extract_and_watch] up to its loop: once the vendor has
    accepted the job, the function returns what the loop and the code
    after it return. *)
Lemma batch_enters_loop urls options w b :
  async_batch_scrape_urls E urls options = Some (PDict b) →
  truthy (default PNone (b !! "success")) = true →
  ∃ w2,
    ticks w2 = S (S (ticks w)) ∧ polls w2 = polls w ∧ fs w2 = fs w
    ∧ ∀ fuel r w',
        V2.watch E fuel (default PNone (b !! "id"))
          (time_time E (ticks w)) (time_time E (S (ticks w))) w2 = (Ok r, w') →
        V2.batch_extract_and_watch E fuel urls options w = (Ok r, w').
Proof.
  intros Hb Hs.
  unfold V2.batch_extract_and_watch, try_except, call_async_batch_scrape_urls,
    py_get, now.
  run. rewrite Hb. cbn. rewrite Hs. cbn.
  eexists. split; [|split; [|split]]; cycle 3.
  { intros fuel r w' Hw. rewrite Hw. reflexivity. }
  all: reflexivity.
Qed.

(** C2, as amended.  When the status polled after [n] passes is still
    running with completed > 0 and completed = total - 1, and the clock
    reads more than 120 seconds past the stall timer, the loop ends with
    that poll and the data and creditsUsed of that status are returned. *)
Theorem C2_stuck_on_last_page_stops_early n fuel job start lp0 w0 lp w d c t :
  passes E n job start lp0 w0 = Some (lp, w) →
  check_batch_scrape_status E job (polls w) = Some (PDict d) →
  running d = true →
  counts d = Some (c, t) →
  (0 < c)%Z → c = (t - 1)%Z →
  (120 < time_time E (ticks w) - lp)%Q →
  ∃ w',
    V2.watch E (n + S fuel) job start lp0 w0
      = (Ok (Some (batch_data d, credits_used d)), w')
    ∧ polls w' = S (polls w).
Proof.
  intros Hn Hs Hr Hc Hpos Heq Hlate. rewrite (watch_passes _ _ _ _ _ _ _ _ Hn).
  destruct (poll_iteration_stuck job start lp w d c t Hs Hr Hc Hpos Heq Hlate)
    as (w1 & Hit & Hp & _).
  rewrite (watch_leave _ _ _ _ _ _ _ Hit).
  destruct (after_loop_break start d (default (PInt 0) (d !! "total")) w1)
    as (w' & -> & Hp' & _).
  exists w'. split; [reflexivity|congruence].
Qed.

(** C3. When the status polled after [n] passes is still running and the
    clock of that pass reads more than 300 seconds past the start, the
    loop ends with that poll and the data and creditsUsed of that status
    are returned; and a pass after which the loop goes on has read a
    clock within the 300 seconds. *)
Theorem C3_timeout_stops_polling n fuel job start lp0 w0 lp w :
  passes E n job start lp0 w0 = Some (lp, w) →
  (∀ d c t,
      check_batch_scrape_status E job (polls w) = Some (PDict d) →
      running d = true →
      counts d = Some (c, t) →
      (300 < time_time E (S (ticks w)) - start)%Q →
      ∃ w',
        V2.watch E (n + S fuel) job start lp0 w0
          = (Ok (Some (batch_data d, credits_used d)), w')
        ∧ polls w' = S (polls w))
  ∧ (∀ lp' w',
        V2.poll_iteration E job start lp w = (Ok (Again lp'), w') →
        (time_time E (S (ticks w)) - start <= 300)%Q).
Proof.
  intros Hn. split.
  - intros d c t Hs Hr Hc Hlate. rewrite (watch_passes _ _ _ _ _ _ _ _ Hn).
    destruct (poll_iteration_timeout job start lp w d c t Hs Hr Hc Hlate)
      as (w1 & Hit & Hp & _).
    rewrite (watch_leave _ _ _ _ _ _ _ Hit).
    destruct (after_loop_break start d (default (PInt 0) (d !! "total")) w1)
      as (w' & -> & Hp' & _).
    exists w'. split; [reflexivity|congruence].
  - intros lp' w' Hit. now apply poll_iteration_again in Hit.
Qed.
End Polling.

(** The job of [E_completes] is completed at its third poll. *)
Lemma C1_witness :
  ∃ w',
    V2.watch E_completes 3 job_demo (clock3 0) (clock3 1) world_loop
      = (Ok (Some (batch_data (status_demo "completed" 3 3),
                   credits_used (status_demo "completed" 3 3))), w')
    ∧ polls w' = 3.
Proof.
  exact (C1_completed_status_ends_polling E_completes 2 0 job_demo
           (clock3 0) (clock3 1) world_loop _ _ (status_demo "completed" 3 3)
           eq_refl eq_refl eq_refl).
Defined.

(** The whole function on [E_completes]. *)
Example batch_extract_and_watch_completes :
  (V2.batch_extract_and_watch E_completes 3 [] V2.EXTRACT_OPTIONS world0).1
  = Ok (Some (PList [PDict page_extract], PInt 3)).
Proof. vm_compute. reflexivity. Qed.

(** C2 as stated fails.  The job of [E_none_done] has one page: for 25
    polls, over 147 seconds, its progress is at completed = total - 1 = 0
    and does not change.  The loop is still running after these polls; it
    ends when the job fails, and nothing is returned. *)
Lemma C2_counterexample_no_page_completed :
  (∀ k, k < 25 →
     check_batch_scrape_status E_none_done job_demo k
     = Some (PDict (status_demo "scraping" 0 1)))
  ∧ running (status_demo "scraping" 0 1) = true
  ∧ counts (status_demo "scraping" 0 1) = Some (0, 1)%Z
  ∧ (0 = 1 - 1)%Z
  ∧ (120 < time_time E_none_done 50 - time_time E_none_done 1)%Q
  ∧ is_Some (passes E_none_done 25 job_demo (clock3 0) (clock3 1) world_loop)
  ∧ (V2.batch_extract_and_watch E_none_done 100 [] V2.EXTRACT_OPTIONS world0).1
    = Ok None.
Proof.
  split.
  { intros k Hk. apply Nat.ltb_lt in Hk.
    unfold E_none_done. cbn [check_batch_scrape_status]. now rewrite Hk. }
  do 4 (split; [reflexivity|]).
  split; [|vm_compute; reflexivity].
  vm_compute. eexists. reflexivity.
Qed.

(** The job of [E_last_page] stays at four pages of five; at the second
    poll the stall timer is 180 seconds old. *)
Lemma C2_witness :
  ∃ w',
    V2.watch E_last_page 2 job_demo (clock60 0) (clock60 1) world_loop
      = (Ok (Some (batch_data (status_demo "scraping" 4 5),
                   credits_used (status_demo "scraping" 4 5))), w')
    ∧ polls w' = 2.
Proof.
  exact (C2_stuck_on_last_page_stops_early E_last_page 1 0 job_demo
           (clock60 0) (clock60 1) world_loop _ _ (status_demo "scraping" 4 5) 4 5
           eq_refl eq_refl eq_refl eq_refl eq_refl eq_refl eq_refl).
Defined.

(** The job of [E_slow] stays at two pages of five; the clock of the third
    pass reads 420 seconds. *)
Lemma C3_witness :
  ∃ w',
    V2.watch E_slow 3 job_demo (clock60 0) (clock60 1) world_loop
      = (Ok (Some (batch_data (status_demo "scraping" 2 5),
                   credits_used (status_demo "scraping" 2 5))), w')
    ∧ polls w' = 3.
Proof.
  exact (proj1 (C3_timeout_stops_polling E_slow 2 0 job_demo
                  (clock60 0) (clock60 1) world_loop _ _ eq_refl)
           (status_demo "scraping" 2 5) 2%Z 5%Z eq_refl eq_refl eq_refl eq_refl).
Defined.

(** The clock of [E_slow] advances as [polling_is_bounded] asks. *)
Lemma clock60_advances from : clock_advances E_slow from.
Proof.
  intros k. cbv [E_slow time_time clock60]. split.
  - rewrite <- Zle_Qle. lia.
  - change 5%Q with (inject_Z 5). rewrite <- inject_Z_plus, <- Zle_Qle. lia.
Qed.

(** ** Exit codes *)

Lemma tame_exits_with_1 {A} (m : M A) : tame m → exits_with_1 m.
Proof. intros H w. specialize (H w). now destruct (m w).1 as [|[]|]. Qed.

Lemma tame_ret {A} (a : A) : tame (mret a).
Proof. now intros w. Qed.

Lemma tame_raise {A} c : tame (raise (A := A) (Exception c)).
Proof. now intros w. Qed.

Lemma tame_sys_exit {A} : tame (sys_exit (A := A) 1).
Proof. now intros w. Qed.

Lemma tame_emit l t a : tame (emit l t a).
Proof. now intros w. Qed.

Lemma tame_bind {A B} (m : M A) (f : A → M B) :
  tame m → (∀ a, tame (f a)) → tame (m ≫= f).
Proof.
  intros Hm Hf w. specialize (Hm w). unfold mbind, M_bind.
  destruct (m w) as [[a|e|] w1]; [apply Hf|exact Hm..].
Qed.

Lemma exits_bind {A B} (m : M A) (f : A → M B) :
  exits_with_1 m → (∀ a, exits_with_1 (f a)) → exits_with_1 (m ≫= f).
Proof.
  intros Hm Hf w. specialize (Hm w). unfold mbind, M_bind.
  destruct (m w) as [[a|e|] w1]; [apply Hf|exact Hm..].
Qed.

Lemma tame_try_except {A} (body : M A) handler :
  tame body → (∀ e, tame (handler e)) → tame (try_except body handler).
Proof.
  intros Hb Hh w. specialize (Hb w). unfold try_except.
  destruct (body w) as [[a|[c|code]|] w1]; [exact Hb|apply Hh|exact Hb..].
Qed.

Lemma exits_try_except {A} (body : M A) handler :
  exits_with_1 body → (∀ e, exits_with_1 (handler e)) →
  exits_with_1 (try_except body handler).
Proof.
  intros Hb Hh w. specialize (Hb w). unfold try_except.
  destruct (body w) as [[a|[c|code]|] w1]; [exact Hb|apply Hh|exact Hb..].
Qed.

Lemma tame_try_finally {A} (body : M A) cleanup :
  tame body → tame cleanup → tame (try_finally body cleanup).
Proof.
  intros Hb Hc w. specialize (Hb w). unfold try_finally.
  destruct (body w) as [[a|e|] w1]; [| |exact Hb];
    specialize (Hc w1); destruct (cleanup w1) as [[[]|e'|] w2]; assumption.
Qed.

Lemma tame_py_get v k dflt : tame (py_get v k dflt).
Proof. now destruct v. Qed.

Lemma tame_py_getitem v k : tame (py_getitem v k).
Proof. destruct v; try easy. intros w. cbn. now destruct (d !! k). Qed.

Lemma tame_py_iter v : tame (py_iter v).
Proof. now destruct v. Qed.

Lemma tame_py_len v : tame (py_len v).
Proof. now destruct v. Qed.

Lemma tame_py_gt_int v z : tame (py_gt_int v z).
Proof. unfold py_gt_int. now destruct (as_int v). Qed.

Lemma tame_py_sub_int v z : tame (py_sub_int v z).
Proof. unfold py_sub_int. now destruct (as_int v). Qed.

Lemma tame_for_each {A B} (body : B → A → M B) items acc :
  (∀ acc x, tame (body acc x)) → tame (for_each body items acc).
Proof.
  intros Hbody. revert acc. induction items as [|x items IH]; intros acc; cbn.
  - apply tame_ret.
  - apply tame_bind; [apply Hbody|apply IH].
Qed.

Section Exit.
Context (E : env) (py_repr : pyval → string).

Lemma tame_now : tame (now E).
Proof. now intros w. Qed.

Lemma tame_sleep s : tame (sleep s).
Proof. now intros w. Qed.

Lemma tame_call_crawl_url : tame (call_crawl_url E).
Proof. intros w. unfold call_crawl_url. now destruct (crawl_url E). Qed.

Lemma tame_call_async urls options : tame (call_async_batch_scrape_urls E urls options).
Proof.
  intros w. unfold call_async_batch_scrape_urls.
  now destruct (async_batch_scrape_urls E urls options).
Qed.

Lemma tame_call_check job : tame (call_check_batch_scrape_status E job).
Proof.
  intros w. unfold call_check_batch_scrape_status.
  now destruct (check_batch_scrape_status E job (polls w)).
Qed.

Lemma tame_io_op effect : tame (io_op E effect).
Proof. intros w. unfold io_op. now destruct (io_fault E (ios w)). Qed.

Ltac tame_step :=
  match goal with
  | |- tame (_ ≫= _) => apply tame_bind; [|intros]
  | |- tame (mret _) => apply tame_ret
  | |- tame (raise (Exception _)) => apply tame_raise
  | |- tame (sys_exit 1) => apply tame_sys_exit
  | |- tame (emit _ _ _) => apply tame_emit
  | |- tame (try_except _ _) => apply tame_try_except; [|intros]
  | |- tame (try_finally _ _) => apply tame_try_finally
  | |- tame (py_get _ _ _) => apply tame_py_get
  | |- tame (py_getitem _ _) => apply tame_py_getitem
  | |- tame (py_iter _) => apply tame_py_iter
  | |- tame (py_len _) => apply tame_py_len
  | |- tame (py_gt_int _ _) => apply tame_py_gt_int
  | |- tame (py_sub_int _ _) => apply tame_py_sub_int
  | |- tame (for_each _ _ _) => apply tame_for_each; intros
  | |- tame (now _) => apply tame_now
  | |- tame (sleep _) => apply tame_sleep
  | |- tame (call_crawl_url _) => apply tame_call_crawl_url
  | |- tame (call_async_batch_scrape_urls _ _ _) => apply tame_call_async
  | |- tame (call_check_batch_scrape_status _ _) => apply tame_call_check
  | |- tame (io_op _ _) => apply tame_io_op
  | |- tame (if ?b then _ else _) => destruct b
  | |- tame (match ?x with _ => _ end) => destruct x
  end.

Lemma tame_with_open_w {A} path (body : M A) : tame body → tame (with_open_w E path body).
Proof. intros Hb. unfold with_open_w, open_w, close. repeat tame_step. exact Hb. Qed.

Lemma tame_process_page page : tame (V2.process_page py_repr page).
Proof. unfold V2.process_page. repeat tame_step. Qed.

Lemma tame_collect acc page : tame (V2.collect py_repr acc page).
Proof. unfold V2.collect. tame_step; [apply tame_process_page|]. repeat tame_step. Qed.

Lemma tame_save_documentation content output_file :
  tame (V2.save_documentation E content output_file).
Proof.
  unfold V2.save_documentation. tame_step; [|repeat tame_step].
  tame_step; [|repeat tame_step]. apply tame_with_open_w.
  unfold write. repeat tame_step.
Qed.

Lemma tame_poll_iteration job start lp : tame (V2.poll_iteration E job start lp).
Proof. unfold V2.poll_iteration. repeat tame_step. Qed.

Lemma tame_extract_page acc page : tame (V1.extract_page py_repr acc page).
Proof. unfold V1.extract_page. repeat tame_step. Qed.

Lemma tame_save_step content : tame (V1.save_step E content).
Proof.
  unfold V1.save_step. tame_step; [|repeat tame_step].
  tame_step; [|repeat tame_step]. apply tame_with_open_w.
  unfold write. repeat tame_step.
Qed.

Lemma tame_main_v1 : tame (V1.main E py_repr).
Proof.
  unfold V1.main. tame_step; [|repeat tame_step].
  repeat first [apply tame_extract_page | apply tame_save_step | tame_step].
Qed.

Lemma exits_poll_loop fuel job start lp :
  exits_with_1 (V2.poll_loop E fuel job start lp).
Proof.
  revert lp. induction fuel as [|fuel IH]; intros lp; cbn [V2.poll_loop].
  - now intros w.
  - apply exits_bind; [apply tame_exits_with_1, tame_poll_iteration|].
    intros [e|lp']; [|apply IH]. now intros w.
Qed.

Lemma tame_after_loop start e : tame (V2.after_loop E start e).
Proof. unfold V2.after_loop. repeat tame_step. Qed.

Lemma exits_batch_extract_and_watch fuel urls options :
  exits_with_1 (V2.batch_extract_and_watch E fuel urls options).
Proof.
  unfold V2.batch_extract_and_watch.
  apply exits_try_except; [|intros; apply tame_exits_with_1; repeat tame_step].
  apply exits_bind; [apply tame_exits_with_1, tame_now|intros start].
  apply exits_bind; [apply tame_exits_with_1, tame_emit|intros _].
  apply exits_bind; [apply tame_exits_with_1, tame_call_async|intros r].
  apply exits_bind; [apply tame_exits_with_1, tame_py_get|intros s].
  destruct (negb (truthy s)); [apply tame_exits_with_1; repeat tame_step|].
  apply exits_bind; [apply tame_exits_with_1, tame_py_get|intros job].
  apply exits_bind; [apply tame_exits_with_1, tame_emit|intros _].
  apply exits_bind; [apply tame_exits_with_1, tame_now|intros lp].
  unfold V2.watch.
  apply exits_bind; [apply exits_poll_loop|intros e].
  apply tame_exits_with_1, tame_after_loop.
Qed.

Lemma exits_main_v2 fuel : exits_with_1 (V2.main E py_repr fuel).
Proof.
  unfold V2.main.
  do 10 (apply exits_bind; [apply tame_exits_with_1; repeat tame_step|intros]).
  apply exits_bind; [apply exits_batch_extract_and_watch|intros r].
  apply tame_exits_with_1.
  repeat first [apply tame_collect | apply tame_save_documentation | tame_step].
Qed.

(** *** What the steps leave of the files *)










Tactic Notation "inv_bind" hyp(H) "as" simple_intropattern(a) ident(w) ident(H1) :=
  apply bind_inv_ok in H as (a & w & H1 & H).

Tactic Notation "skip_step" hyp(H) :=
  let a := fresh in let w := fresh in let H1 := fresh in
  apply bind_inv_ok in H as (a & w & H1 & H); clear H1.



(** *** firecrawl-test-v2.py *)


(** A crawl that reports no success ends the run with status 1 before
    any file is touched. *)
Lemma main_v2_crawl_failed fuel w r :
  crawl_url E = Some (PDict r) →
  truthy (default PNone (r !! "success")) = false →
  ∃ w', V2.main E py_repr fuel w = (Raise (SystemExit 1), w') ∧ fs w' = fs w.
Proof.
  intros Hr Hs. unfold V2.main, call_crawl_url, now, py_get. run.
  rewrite Hr. cbn. rewrite Hs. cbn. eauto.
Qed.

(** *** firecrawl-test.py *)

Lemma main_v1_crawl_failed w r :
  crawl_url E = Some (PDict r) →
  truthy (default PNone (r !! "success")) = false →
  ∃ w', V1.main E py_repr w = (Raise (SystemExit 1), w') ∧ fs w' = fs w.
Proof.
  intros Hr Hs. unfold V1.main, try_except, call_crawl_url, py_get. run.
  rewrite Hr. cbn. rewrite Hs. cbn. eauto.
Qed.

(** X19. In firecrawl-test.py a crawl that succeeds without data (the
    field is missing, or empty) ends the run with status 1 before any
    file is touched. *)
Lemma main_v1_no_data w r :
  crawl_url E = Some (PDict r) →
  truthy (default PNone (r !! "success")) = true →
  truthy (default (PList []) (r !! "data")) = false →
  ∃ w', V1.main E py_repr w = (Raise (SystemExit 1), w') ∧ fs w' = fs w.
Proof.
  intros Hr Hs Hd. unfold V1.main, try_except, call_crawl_url, py_get. run.
  rewrite Hr. cbn. rewrite Hs. cbn. rewrite Hd. cbn. eauto.
Qed.


(** X13. firecrawl-test.py always ends, with status 0 or 1: every
    exception of its body is turned into sys.exit(1). *)
Theorem main_v1_exit_codes w :
  exit_code (V1.main E py_repr w).1 = Some 0%Z
  ∨ exit_code (V1.main E py_repr w).1 = Some 1%Z.
Proof.
  pose proof (tame_main_v1 w) as H.
  destruct (V1.main E py_repr w).1 as [[]|[c|code]|]; cbn in *; subst; auto.
  contradiction.
Qed.

(** X12. firecrawl-test-v2.py ends with status 0 or 1, by returning, by
    sys.exit(1) or by an exception nobody caught, unless it is still
    polling when the fuel runs out. *)
Theorem main_v2_exit_codes fuel w :
  exit_code (V2.main E py_repr fuel w).1 = Some 0%Z
  ∨ exit_code (V2.main E py_repr fuel w).1 = Some 1%Z
  ∨ (V2.main E py_repr fuel w).1 = OutOfFuel.
Proof.
  pose proof (exits_main_v2 fuel w) as H.
  destruct (V2.main E py_repr fuel w).1 as [[]|[c|code]|]; cbn in *; subst; auto.
Qed.
End Exit.

(** C7, at the input where the run of firecrawl-test.py departs from it.
    The crawl succeeds and its only page has no content: firecrawl-test.py
    writes no file and ends with status 0, where firecrawl-test-v2.py, on
    the same page, ends with status 1. *)
Theorem C7_no_content_exit_status :
  exit_code (V1.main E_no_content repr0 world0).1 = Some 0%Z
  ∧ fs (V1.main E_no_content repr0 world0).2 = ∅
  ∧ last (out (V1.main E_no_content repr0 world0).2)
    = Some (LogEntry STDOUT "No content was extracted" [])
  ∧ exit_code (V2.main E_no_content repr0 1 world0).1 = Some 1%Z
  ∧ fs (V2.main E_no_content repr0 1 world0).2 = ∅.
Proof. vm_compute. repeat split. Qed.

(** The other ends of a run, on small worlds: a failed crawl and a file
    that cannot be written give status 1, a page with content gives
    status 0. *)
Example exit_status_crawl_failed :
  exit_code (V1.main E_crawl_failed repr0 world0).1 = Some 1%Z
  ∧ exit_code (V2.main E_crawl_failed repr0 1 world0).1 = Some 1%Z.
Proof. vm_compute. split; reflexivity. Qed.

Example exit_status_write_failed :
  exit_code (V1.main E_read_only repr0 world0).1 = Some 1%Z
  ∧ exit_code (V2.main E_read_only repr0 1 world0).1 = Some 1%Z.
Proof. vm_compute. split; reflexivity. Qed.

Example exit_status_success :
  exit_code (V1.main E_completes repr0 world0).1 = Some 0%Z
  ∧ exit_code (V2.main E_completes repr0 3 world0).1 = Some 0%Z.
Proof. vm_compute. split; reflexivity. Qed.

(** ** Exceptions that stay inside *)

Lemma contained_ret {A} cut (a : A) : contained cut (mret a).
Proof. now intros w. Qed.

Lemma contained_raise {A} cut c : contained cut (raise (A := A) (Exception c)).
Proof. now intros w. Qed.

Lemma contained_emit cut l t a : contained cut (emit l t a).
Proof. now intros w. Qed.

Lemma contained_bind {A B} cut (m : M A) (f : A → M B) :
  contained cut m → (∀ a, contained cut (f a)) → contained cut (m ≫= f).
Proof.
  intros Hm Hf w. specialize (Hm w). unfold mbind, M_bind.
  destruct (m w) as [[a|e|] w1]; [apply Hf|exact Hm..].
Qed.

Lemma contained_try_except {A} cut (body : M A) handler :
  contained cut body → (∀ e, contained cut (handler e)) →
  contained cut (try_except body handler).
Proof.
  intros Hb Hh w. specialize (Hb w). unfold try_except.
  destruct (body w) as [[a|[c|code]|] w1]; [exact Hb|apply Hh|exact Hb..].
Qed.

Lemma contained_py_get cut v k dflt : contained cut (py_get v k dflt).
Proof. now destruct v. Qed.

Lemma contained_py_iter cut v : contained cut (py_iter v).
Proof. now destruct v. Qed.

Lemma contained_py_gt_int cut v z : contained cut (py_gt_int v z).
Proof. unfold py_gt_int. now destruct (as_int v). Qed.

Lemma contained_py_sub_int cut v z : contained cut (py_sub_int v z).
Proof. unfold py_sub_int. now destruct (as_int v). Qed.

Lemma contained_py_add_int cut z v : contained cut (V2.py_add_int z v).
Proof. unfold V2.py_add_int. now destruct (as_int v). Qed.

Lemma contained_now cut E : contained cut (now E).
Proof. now intros w. Qed.

Lemma contained_sleep cut s : contained cut (sleep s).
Proof. now intros w. Qed.

Lemma contained_call_async cut E urls options :
  contained cut (call_async_batch_scrape_urls E urls options).
Proof.
  intros w. unfold call_async_batch_scrape_urls.
  now destruct (async_batch_scrape_urls E urls options).
Qed.

Lemma contained_call_check cut E job :
  contained cut (call_check_batch_scrape_status E job).
Proof.
  intros w. unfold call_check_batch_scrape_status.
  now destruct (check_batch_scrape_status E job (polls w)).
Qed.

Lemma contained_call_watch cut oracle base_url options :
  contained cut (V2.call_crawl_url_and_watch oracle base_url options).
Proof.
  intros w. unfold V2.call_crawl_url_and_watch.
  now destruct (oracle base_url options).
Qed.

Ltac contained_step :=
  match goal with
  | |- contained _ (_ ≫= _) => apply contained_bind; [|intros]
  | |- contained _ (mret _) => apply contained_ret
  | |- contained _ (raise (Exception _)) => apply contained_raise
  | |- contained _ (emit _ _ _) => apply contained_emit
  | |- contained _ (try_except _ _) => apply contained_try_except; [|intros]
  | |- contained _ (py_get _ _ _) => apply contained_py_get
  | |- contained _ (py_iter _) => apply contained_py_iter
  | |- contained _ (py_gt_int _ _) => apply contained_py_gt_int
  | |- contained _ (py_sub_int _ _) => apply contained_py_sub_int
  | |- contained _ (V2.py_add_int _ _) => apply contained_py_add_int
  | |- contained _ (now _) => apply contained_now
  | |- contained _ (sleep _) => apply contained_sleep
  | |- contained _ (call_async_batch_scrape_urls _ _ _) => apply contained_call_async
  | |- contained _ (call_check_batch_scrape_status _ _) => apply contained_call_check
  | |- contained _ (V2.call_crawl_url_and_watch _ _ _) => apply contained_call_watch
  | |- contained _ (if ?b then _ else _) => destruct b
  | |- contained _ (match ?x with _ => _ end) => destruct x
  end.

(** A [try] whose body keeps its exceptions catchable and whose handler
    returns, returns. *)
Lemma try_except_returns {A} (body : M A) handler :
  contained false body →
  (∀ e w, ∃ r, (handler e w).1 = Ok r) →
  ∀ w, ∃ r, (try_except body handler w).1 = Ok r.
Proof.
  intros Hb Hh w. specialize (Hb w). unfold try_except.
  destruct (body w) as [[a|[c|code]|] w1]; cbn in Hb |- *;
    [eauto | apply Hh | contradiction | discriminate].
Qed.

Section CrawlSite.
Context (E : env) (oracle : string → pyval → option (list (option pyval))).

Lemma contained_for_updates watcher data credits :
  contained false (V2.for_updates watcher data credits).
Proof.
  revert data credits. induction watcher as [|[update|] rest IH];
    intros data credits; cbn [V2.for_updates].
  - apply contained_ret.
  - repeat first [apply IH | contained_step].
  - apply contained_raise.
Qed.

(** The loop gets past the updates that are [passing_update], adding
    their pages to the list. *)
Lemma for_updates_passing us rest data credits w :
  Forall passing_update us →
  ∃ credits' w',
    V2.for_updates (yields us ++ rest) data credits w
    = V2.for_updates rest (data ++ concat (update_pages <$> us)) credits' w'
    ∧ fs w' = fs w.
Proof.
  intros Hus. revert data credits w.
  induction Hus as [|u us [Hnf Hpage] _ IH]; intros data credits w.
  - cbn. rewrite app_nil_r. eauto.
  - cbn [yields fmap list_fmap app V2.for_updates concat].
    fold (yields us). unfold py_get. run. fold (update_type u).
    unfold update_pages at 1.
    destruct (py_eq_str (update_type u) "crawl.page") eqn:Hp.
    + destruct (Hpage eq_refl) as (pages & Hdata & Hcredits). rewrite Hdata.
      destruct pages as [|p pages].
      * cbn. apply IH.
      * destruct Hcredits as [|[c Hc]]; [discriminate|].
        cbn. unfold V2.py_add_int. rewrite Hc. run.
        replace (data ++ p :: pages ++ concat (update_pages <$> us))
          with ((data ++ p :: pages) ++ concat (update_pages <$> us))
          by (now rewrite <- app_assoc).

        edestruct IH as (credits' & w' & -> & Hfs). eauto.
    + cbn. destruct (py_eq_str (update_type u) "crawl.completed").
      * run. edestruct IH as (credits' & w' & -> & Hfs). eauto.
      * rewrite Hnf. apply IH.
Qed.

(** X1. When every update the watcher yields is passing, [crawl_site]
    returns the pages of the crawl.page updates, in the order received;
    a crawl.completed update does not end the loop, and updates of other
    types and page updates without data add nothing. *)
Theorem crawl_site_collects_pages base_url options us w :
  oracle base_url options = Some (yields us) →
  Forall passing_update us →
  (V2.crawl_site E oracle base_url options w).1
  = Ok (Some (concat (update_pages <$> us))).
Proof.
  intros Ho Hus. unfold V2.crawl_site, try_except, V2.call_crawl_url_and_watch, now.
  run. rewrite Ho. cbn.
  rewrite <- (app_nil_r (yields us)).
  edestruct (for_updates_passing us [] [] 0%Z) as (credits' & w' & -> & _); [exact Hus|].
  reflexivity.
Qed.

(** X2. At a crawl.failed update [crawl_site] logs the error and returns
    None: the pages received before it are dropped and the updates after
    it are not read. *)
Theorem crawl_site_failed base_url options us u rest w :
  oracle base_url options = Some (yields us ++ Some (PDict u) :: rest) →
  Forall passing_update us →
  update_type u = PStr "crawl.failed" →
  ∃ w',
    V2.crawl_site E oracle base_url options w = (Ok None, w')
    ∧ last (out w')
      = Some (LogEntry ERROR "Crawl failed: {error}" [AVal (default PNone (u !! "error"))]).
Proof.
  intros Ho Hus Hu. unfold V2.crawl_site, try_except, V2.call_crawl_url_and_watch, now.
  run. rewrite Ho. cbn.
  edestruct (for_updates_passing us (Some (PDict u) :: rest) [] 0%Z)
    as (credits' & w' & -> & _); [exact Hus|].
  cbn [V2.for_updates]. unfold py_get. run. fold (update_type u). rewrite Hu. cbn.
  eexists. split; [reflexivity|]. cbn. apply last_snoc.
Qed.

(** X4. When the watcher raises in the middle of the crawl, [crawl_site]
    logs the error and returns None: the pages received so far are lost. *)
Theorem crawl_site_watcher_raises base_url options us rest w :
  oracle base_url options = Some (yields us ++ None :: rest) →
  Forall passing_update us →
  ∃ w',
    V2.crawl_site E oracle base_url options w = (Ok None, w')
    ∧ last (out w')
      = Some (LogEntry ERROR "Crawl failed with error: {str(e)}"
                [AExn (Exception VendorError)]).
Proof.
  intros Ho Hus. unfold V2.crawl_site, try_except, V2.call_crawl_url_and_watch, now.
  run. rewrite Ho. cbn.
  edestruct (for_updates_passing us (None :: rest) [] 0%Z)
    as (credits' & w' & -> & _); [exact Hus|].
  cbn. eexists. split; [reflexivity|]. cbn. apply last_snoc.
Qed.

(** X3. [crawl_site] never lets an exception out, whatever the watcher
    yields: it returns a list of pages or None. *)
Theorem crawl_site_returns base_url options w :
  ∃ r, (V2.crawl_site E oracle base_url options w).1 = Ok r.
Proof.
  unfold V2.crawl_site. apply try_except_returns.
  - repeat first [apply contained_for_updates | contained_step].
  - intros e w'. run. eauto.
Qed.
End CrawlSite.

(** ** The batch job, from start to return *)

Section Batch.
Context (E : env).

Lemma contained_poll_iteration cut job start lp :
  contained cut (V2.poll_iteration E job start lp).
Proof. unfold V2.poll_iteration. repeat contained_step. Qed.

Lemma contained_poll_loop fuel job start lp :
  contained true (V2.poll_loop E fuel job start lp).
Proof.
  revert lp. induction fuel as [|fuel IH]; intros lp; cbn [V2.poll_loop].
  - now intros w.
  - apply contained_bind; [apply contained_poll_iteration|].
    intros [e|lp']; [apply contained_ret|apply IH].
Qed.

Lemma contained_after_loop cut start e : contained cut (V2.after_loop E start e).
Proof. unfold V2.after_loop. repeat contained_step. Qed.

(** Once the vendor has accepted the job, [batch_extract_and_watch] is its
    loop and the code after it, inside the [try]. *)
Lemma batch_runs_loop fuel urls options w b :
  async_batch_scrape_urls E urls options = Some (PDict b) →
  truthy (default PNone (b !! "success")) = true →
  V2.batch_extract_and_watch E fuel urls options w
  = try_except
      (V2.watch E fuel (default PNone (b !! "id"))
         (time_time E (ticks w)) (time_time E (S (ticks w))))
      (λ e, emit ERROR "Batch extraction failed with error: {str(e)}" [AExn e];;
            mret None)
      (loop_entry urls b w).
Proof.
  intros Hb Hs.
  unfold V2.batch_extract_and_watch, try_except, call_async_batch_scrape_urls,
    py_get, now, loop_entry.
  run. rewrite Hb. cbn. rewrite Hs. reflexivity.
Qed.

(** A job the vendor does not accept. *)
Lemma batch_not_started fuel urls options w :
  match async_batch_scrape_urls E urls options with
  | Some (PDict b) => truthy (default PNone (b !! "success")) = false
  | _ => True
  end →
  ∃ w',
    V2.batch_extract_and_watch E fuel urls options w = (Ok None, w')
    ∧ polls w' = polls w ∧ fs w' = fs w.
Proof.
  unfold V2.batch_extract_and_watch, try_except, call_async_batch_scrape_urls,
    py_get, now.
  run.
  destruct (async_batch_scrape_urls E urls options) as [[| | | | |b]|]; cbn;
    try (intros _; eexists; repeat split; reflexivity).
  intros ->. cbn. eexists. repeat split; reflexivity.
Qed.


(** X7. When the vendor does not accept the batch job (the call raises,
    the answer is no object, or its success field is missing or falsy),
    [batch_extract_and_watch] returns None without a single poll. *)
Theorem rejected_job_returns_none fuel urls options w :
  match async_batch_scrape_urls E urls options with
  | Some (PDict b) => truthy (default PNone (b !! "success")) = false
  | _ => True
  end →
  ∃ w',
    V2.batch_extract_and_watch E fuel urls options w = (Ok None, w')
    ∧ polls w' = polls w ∧ fs w' = fs w.
Proof. apply batch_not_started. Qed.

Lemma poll_iteration_failed job start lp w d :
  check_batch_scrape_status E job (polls w) = Some (PDict d) →
  job_state d = PStr "failed" →
  ∃ w', V2.poll_iteration E job start lp w = (Ok (Leave ReturnNone), w')
        ∧ polls w' = S (polls w) ∧ ticks w' = ticks w ∧ fs w' = fs w.
Proof.
  intros Hs Hc. unfold V2.poll_iteration, call_check_batch_scrape_status, py_get.
  run. rewrite Hs. fold (job_state d). rewrite Hc. cbn. eauto.
Qed.

(** X6. When the status polled after [n] passes is failed,
    [batch_extract_and_watch] returns None at that poll, whatever data the
    status carries. *)
Theorem failed_status_returns_none n fuel urls options w b lp wn d :
  async_batch_scrape_urls E urls options = Some (PDict b) →
  truthy (default PNone (b !! "success")) = true →
  passes E n (default PNone (b !! "id")) (time_time E (ticks w))
    (time_time E (S (ticks w))) (loop_entry urls b w) = Some (lp, wn) →
  check_batch_scrape_status E (default PNone (b !! "id")) (polls wn) = Some (PDict d) →
  job_state d = PStr "failed" →
  ∃ w',
    V2.batch_extract_and_watch E (n + S fuel) urls options w = (Ok None, w')
    ∧ polls w' = S (polls wn).
Proof.
  intros Hb Hs Hn Hd Hf. rewrite (batch_runs_loop _ _ _ _ _ Hb Hs).
  unfold try_except. rewrite (watch_passes _ _ _ _ _ _ _ _ _ Hn).
  destruct (poll_iteration_failed _ (time_time E (ticks w)) lp wn d Hd Hf)
    as (w1 & Hit & Hp & _).
  rewrite (watch_leave _ _ _ _ _ _ _ _ Hit). cbn. eauto.
Qed.

Lemma poll_iteration_raises job start lp w :
  poll_raises E job (polls w) →
  ∃ c w', V2.poll_iteration E job start lp w = (Raise (Exception c), w')
          ∧ polls w' = S (polls w).
Proof.
  unfold poll_raises, V2.poll_iteration, call_check_batch_scrape_status, py_get,
    py_gt_int, py_sub_int.
  run.
  destruct (check_batch_scrape_status E job (polls w)) as [[| | | | |d]|]; cbn;
    try (intros _; do 2 eexists; split; reflexivity).
  fold (job_state d). intros [[Hc Hf]%running_states Hints]. rewrite Hc, Hf.
  destruct (as_int (default (PInt 0) (d !! "completed"))) as [c|]; cbn.
  - destruct Hints as [Hpos ->]. apply Z.ltb_lt in Hpos. rewrite Hpos. cbn.
    do 2 eexists. split; reflexivity.
  - do 2 eexists. split; reflexivity.
Qed.

(** X8. When the poll after [n] passes raises (the client raises, the
    status is no object, or a page count the loop computes with is no
    integer), [batch_extract_and_watch] logs the error and returns None:
    the exception does not reach the caller. *)
Theorem poll_error_returns_none n fuel urls options w b lp wn :
  async_batch_scrape_urls E urls options = Some (PDict b) →
  truthy (default PNone (b !! "success")) = true →
  passes E n (default PNone (b !! "id")) (time_time E (ticks w))
    (time_time E (S (ticks w))) (loop_entry urls b w) = Some (lp, wn) →
  poll_raises E (default PNone (b !! "id")) (polls wn) →
  ∃ c w',
    V2.batch_extract_and_watch E (n + S fuel) urls options w = (Ok None, w')
    ∧ polls w' = S (polls wn)
    ∧ last (out w')
      = Some (LogEntry ERROR "Batch extraction failed with error: {str(e)}"
                [AExn (Exception c)]).
Proof.
  intros Hb Hs Hn Hr. rewrite (batch_runs_loop _ _ _ _ _ Hb Hs).
  unfold try_except. rewrite (watch_passes _ _ _ _ _ _ _ _ _ Hn).
  destruct (poll_iteration_raises _ (time_time E (ticks w)) lp wn Hr)
    as (c & w1 & Hit & Hp).
  unfold V2.watch. cbn [V2.poll_loop]. unfold mbind at 1 2, M_bind at 1 2.
  rewrite Hit. run. exists c. eexists. split; [reflexivity|]. cbn.
  split; [exact Hp|apply last_snoc].
Qed.

(** X5. [batch_extract_and_watch] always returns: under a clock that
    never goes back and lets five seconds pass at each sleep(5), 62 passes
    of the loop are enough, whatever the vendor answers. *)
Theorem batch_extract_and_watch_returns (fuel : nat) urls options w :
  clock_advances E (S (S (ticks w))) →
  (time_time E (ticks w) <= time_time E (S (S (ticks w))))%Q →
  (62 ≤ fuel)%nat →
  ∃ r, (V2.batch_extract_and_watch E fuel urls options w).1 = Ok r.
Proof.
  intros Hclock Hstart Hfuel.
  destruct (async_batch_scrape_urls E urls options) as [v|] eqn:Hb.
  2:{ destruct (batch_not_started fuel urls options w) as (w' & -> & _);
        [now rewrite Hb|eauto]. }
  destruct (match v with PDict b => truthy (default PNone (b !! "success")) | _ => false end)
    eqn:Hs.
  2:{ destruct (batch_not_started fuel urls options w) as (w' & -> & _);
        [|eauto]. rewrite Hb. now destruct v. }
  destruct v as [| | | | |b]; try discriminate.
  rewrite (batch_runs_loop _ _ _ _ _ Hb Hs). unfold try_except, V2.watch.
  pose proof (polling_is_bounded E fuel (default PNone (b !! "id"))
                (time_time E (ticks w)) (time_time E (S (ticks w)))
                (loop_entry urls b w) Hclock Hstart Hfuel) as Hbound.
  pose proof (contained_poll_loop fuel (default PNone (b !! "id"))
                (time_time E (ticks w)) (time_time E (S (ticks w)))
                (loop_entry urls b w)) as Hloop.
  unfold mbind, M_bind.
  destruct (V2.poll_loop E fuel _ _ _ (loop_entry urls b w)) as [[e|[c|code]|] w1];
    cbn in Hbound, Hloop; try easy.
  - pose proof (contained_after_loop false (time_time E (ticks w)) e w1) as Hafter.
    destruct (V2.after_loop E (time_time E (ticks w)) e w1) as [[r|[c|code]|] w2];
      cbn in Hafter; try easy; eauto.
  - eauto.
Qed.

(** X9. After a pass that goes around, last_progress_time is unchanged
    when the status has completed > 0 and completed = total - 1, also when
    these counts differ from those of the poll before, and it is the clock
    reading of the pass in every other case. *)
Theorem stall_timer_follows_last_page job start lp w d c t lp' w' :
  check_batch_scrape_status E job (polls w) = Some (PDict d) →
  counts d = Some (c, t) →
  V2.poll_iteration E job start lp w = (Ok (Again lp'), w') →
  lp' = if ((0 <? c) && (c =? t - 1))%Z then lp else time_time E (ticks w).
Proof.
  intros Hs Hc Hit.
  destruct (Z.ltb_spec 0 c); cbn; [destruct (Z.eqb_spec c (t - 1))|].
  - eapply stall_timer_kept; eauto.
  - eapply stall_timer_reset; eauto. tauto.
  - eapply stall_timer_reset; eauto. lia.
Qed.
End Batch.

(** ** Pages and runs that go wrong *)

Section More.
Context (E : env) (py_repr : pyval → string).

(** X10. A page that is no object, or whose metadata is present and no
    object, makes [process_page] log the error and return None: the
    AttributeError is caught inside. *)
Theorem process_page_malformed page w :
  match page with
  | PDict d => metadata_of d = None
  | _ => True
  end →
  V2.process_page py_repr page w
  = (Ok None,
     with_out (λ o, o ++ [LogEntry ERROR "Failed to process page: {str(e)}"
                            [AExn (Exception AttributeError)]]) w).
Proof.
  unfold V2.process_page, try_except, py_get, metadata_of.
  destruct page as [| | | | |d]; run; try reflexivity.
  destruct (default (PDict ∅) (d !! "metadata")); run; try reflexivity.
  discriminate.
Qed.

Lemma page_block_not_empty title url content :
  (page_block py_repr title url content =? "") = false.
Proof. reflexivity. Qed.

Lemma process_page_cases page w :
  (V2.process_page py_repr page w).1 = Ok (block_of py_repr page).
Proof.
  unfold block_of. rewrite (process_page_value py_repr page w (World ∅ [] 0 0 0)).
  destruct (process_page_returns py_repr page (World ∅ [] 0 0 0)) as [[s|] ->];
    reflexivity.
Qed.

Lemma block_of_not_empty page s : block_of py_repr page = Some s → (s =? "") = false.
Proof.
  unfold block_of, V2.process_page, try_except, py_get.
  destruct page as [| | | | |d]; run; try discriminate.
  destruct (default (PDict ∅) (d !! "metadata")); run; try discriminate.
  destruct (negb _); run; [discriminate|].
  intros [= <-]. apply page_block_not_empty.
Qed.

(** X18. The loop of [main] that collects the blocks keeps the block of
    every page for which [process_page] returns one, in the order of the
    pages, and never raises. *)
Theorem collect_keeps_every_block pages acc w :
  (for_each (V2.collect py_repr) pages acc w).1
  = Ok (acc ++ omap (block_of py_repr) pages).
Proof.
  revert acc w. induction pages as [|page pages IH]; intros acc w; cbn.
  - now rewrite app_nil_r.
  - unfold mbind at 1, M_bind at 1. unfold V2.collect at 1.
    unfold mbind at 1, M_bind at 1.
    pose proof (process_page_cases page w) as Hp.
    destruct (V2.process_page py_repr page w) as [r w1]. cbn in Hp. subst r.
    destruct (block_of py_repr page) as [s|] eqn:Hb.
    + rewrite (block_of_not_empty page s Hb). run.
      rewrite IH. now rewrite <- app_assoc.
    + run. apply IH.
Qed.

Lemma url_body_good p u (acc : list pyval) w :
  source_url p = Some u →
  (metadata ← py_getitem p "metadata";
   url ← py_getitem metadata "sourceURL";
   mret (acc ++ [url])) w = (Ok (acc ++ [u]), w).
Proof.
  unfold source_url, py_getitem. intros Hu.
  destruct p as [| | | | |d]; try discriminate.
  destruct (d !! "metadata") as [[| | | | |m]|]; try discriminate.
  run. now rewrite Hu.
Qed.

Lemma url_loop_good good acc w :
  Forall (λ p, is_Some (source_url p)) good →
  ∃ urls,
    for_each
      (λ acc page,
         metadata ← py_getitem page "metadata";
         url ← py_getitem metadata "sourceURL";
         mret (acc ++ [url]))
      good acc w = (Ok (acc ++ urls), w).
Proof.
  intros Hgood. revert acc. induction Hgood as [|p good [u Hu] _ IH]; intros acc.
  - exists []. cbn. now rewrite app_nil_r.
  - destruct (IH (acc ++ [u])) as [urls Hrun]. exists (u :: urls).
    cbn [for_each]. rewrite (bind_ok _ _ _ _ _ (url_body_good p u acc w Hu)).
    rewrite Hrun. now rewrite <- app_assoc.
Qed.

Lemma url_loop_bad bad acc w :
  source_url bad = None →
  ∃ c,
    (metadata ← py_getitem bad "metadata";
     url ← py_getitem metadata "sourceURL";
     mret (acc ++ [url])) w = (Raise (Exception c), w).
Proof.
  unfold source_url, py_getitem. intros Hbad.
  destruct bad as [| | | | |d]; run; eauto.
  destruct (d !! "metadata") as [[| | | | |m]|]; run; eauto.
  rewrite Hbad. eauto.
Qed.

(** X15. When a page of the crawl has no metadata.sourceURL for [main] of
    firecrawl-test-v2.py to read, the exception of the subscript is not
    caught: the run ends before the batch job is submitted, with no poll
    made and no file touched. *)
Theorem main_v2_page_without_url fuel w r good bad rest :
  crawl_url E = Some (PDict r) →
  truthy (default PNone (r !! "success")) = true →
  default (PList []) (r !! "data") = PList (good ++ bad :: rest) →
  Forall (λ p, is_Some (source_url p)) good →
  source_url bad = None →
  ∃ c w',
    V2.main E py_repr fuel w = (Raise (Exception c), w')
    ∧ fs w' = fs w ∧ polls w' = polls w.
Proof.
  intros Hr Hs Hd Hgood Hbad.
  unfold V2.main.
  match goal with
  | |- context [for_each ?b _ (@nil pyval)] => set (body := b)
  end.
  unfold call_crawl_url, now, py_get, py_iter. run.
  rewrite Hr. cbn. rewrite Hs. cbn. rewrite Hd. cbn.
  rewrite for_each_app. unfold mbind, M_bind.
  match goal with
  | |- context [for_each body good [] ?w0] =>
      destruct (url_loop_good good [] w0 Hgood) as [urls Hrun];
      destruct (url_loop_bad bad ([] ++ urls) w0 Hbad) as [c Hraise]
  end.
  fold body in Hrun. rewrite Hrun. cbn [for_each].
  unfold mbind, M_bind.
  change (body ([] ++ urls) bad) with
    (metadata ← py_getitem bad "metadata";
     url ← py_getitem metadata "sourceURL";
     mret (([] ++ urls) ++ [url])).
  rewrite Hraise. exists c. eexists. split; [reflexivity|]. split; reflexivity.
Qed.
Lemma extract_page_extractable page acc w :
  extractable page →
  ∃ acc' w', V1.extract_page py_repr acc page w = (Ok acc', w') ∧ fs w' = fs w.
Proof.
  unfold extractable, metadata_of, V1.extract_page, py_get.
  destruct page as [| | | | |d]; run; eauto.
  destruct (default (PDict ∅) (d !! "metadata")); intros [m Hm]; try discriminate.
  run. destruct (truthy _); run; eauto.
Qed.

Lemma extract_loop_extractable pages acc w :
  Forall extractable pages →
  ∃ acc' w',
    for_each (V1.extract_page py_repr) pages acc w = (Ok acc', w') ∧ fs w' = fs w.
Proof.
  intros Hpages. revert acc w.
  induction Hpages as [|page pages Hpage _ IH]; intros acc w; cbn [for_each].
  - run. eauto.
  - destruct (extract_page_extractable page acc w Hpage) as (acc1 & w1 & Hrun & Hfs).
    rewrite (bind_ok _ _ _ _ _ Hrun).
    destruct (IH acc1 w1) as (acc' & w' & -> & Hfs'). exists acc', w'.
    split; [reflexivity|congruence].
Qed.

Lemma extract_page_bad_metadata d acc w :
  metadata_of d = None →
  V1.extract_page py_repr acc (PDict d) w = (Raise (Exception AttributeError), w).
Proof.
  unfold metadata_of, V1.extract_page, py_get.
  destruct (default (PDict ∅) (d !! "metadata")); run; try reflexivity.
  discriminate.
Qed.

(** X16. In firecrawl-test.py a page whose metadata is present and no
    object ends the whole run with status 1: the AttributeError reaches
    the handler of [main], and no file is written even when earlier pages
    had content. *)
Theorem main_v1_bad_metadata w r pre d post :
  crawl_url E = Some (PDict r) →
  truthy (default PNone (r !! "success")) = true →
  default (PList []) (r !! "data") = PList (pre ++ PDict d :: post) →
  Forall extractable pre →
  metadata_of d = None →
  ∃ w', V1.main E py_repr w = (Raise (SystemExit 1), w') ∧ fs w' = fs w.
Proof.
  intros Hr Hs Hd Hpre Hbad.
  unfold V1.main, try_except, call_crawl_url, py_get, py_len, py_iter. run.
  rewrite Hr. cbn. rewrite Hs. cbn. rewrite Hd.
  assert (truthy (PList (pre ++ PDict d :: post)) = true) as ->
    by (cbn; rewrite length_app; cbn; now rewrite Nat.add_succ_r).
  cbn. rewrite for_each_app.
  match goal with
  | |- context [(for_each _ pre [] ≫= _) ?w0] =>
      destruct (extract_loop_extractable pre [] w0 Hpre) as (acc & w1 & Hrun & Hfs)
  end.
  rewrite (bind_ok _ _ _ _ _ Hrun). cbn [for_each].
  rewrite (bind_raise _ _ _ _ _ (extract_page_bad_metadata d acc w1 Hbad)).
  eexists. split; [reflexivity|]. cbn. exact Hfs.
Qed.

(** X17. When the crawl call raises, answers with no object, or reports
    no success, both scripts end with status 1 and leave the files as they
    are. *)
Theorem failed_crawl_ends_run fuel w :
  match crawl_url E with
  | Some (PDict r) => truthy (default PNone (r !! "success")) = false
  | _ => True
  end →
  (exit_code (V2.main E py_repr fuel w).1 = Some 1%Z
   ∧ fs (V2.main E py_repr fuel w).2 = fs w)
  ∧ (exit_code (V1.main E py_repr w).1 = Some 1%Z
     ∧ fs (V1.main E py_repr w).2 = fs w).
Proof.
  unfold V2.main, V1.main, try_except, call_crawl_url, now, py_get. run.
  destruct (crawl_url E) as [[| | | | |r]|]; cbn;
    [intros _; repeat split; reflexivity ..| |intros _; repeat split; reflexivity].
  intros ->. cbn. repeat split; reflexivity.
Qed.
End More.

(** ** The statements above on concrete runs *)

Ltac passing_page :=
  split; [reflexivity|];
  intros _; eexists; split; [reflexivity|]; right; eexists; reflexivity.

Ltac passing_other :=
  split; [reflexivity|];
  let H := fresh in intros H; vm_compute in H; discriminate H.

Lemma crawl_site_collects_pages_witness :
  (V2.crawl_site E_completes watcher_demo V2.BASE_URL PNone world0).1
  = Ok (Some [PDict page_markdown; PDict page_empty]).
Proof.
  apply (crawl_site_collects_pages E_completes watcher_demo V2.BASE_URL PNone
           [update_page [PDict page_markdown] 1; update_completed;
            update_page [PDict page_empty] 1] world0 eq_refl).
  constructor; [passing_page|].
  constructor; [passing_other|].
  constructor; [passing_page|constructor].
Defined.

Lemma crawl_site_failed_witness :
  ∃ w',
    V2.crawl_site E_completes watcher_failed V2.BASE_URL PNone world0 = (Ok None, w')
    ∧ last (out w')
      = Some (LogEntry ERROR "Crawl failed: {error}" [AVal (PStr "rate limit")]).
Proof.
  apply (crawl_site_failed E_completes watcher_failed V2.BASE_URL PNone
           [update_page [PDict page_markdown] 1] update_failed
           [Some (PDict (update_page [PDict page_empty] 1))] world0 eq_refl);
    [constructor; [passing_page|constructor] | reflexivity].
Defined.

Lemma crawl_site_watcher_raises_witness :
  ∃ w',
    V2.crawl_site E_completes watcher_broken V2.BASE_URL PNone world0 = (Ok None, w')
    ∧ last (out w')
      = Some (LogEntry ERROR "Crawl failed with error: {str(e)}"
                [AExn (Exception VendorError)]).
Proof.
  apply (crawl_site_watcher_raises E_completes watcher_broken V2.BASE_URL PNone
           [update_page [PDict page_markdown] 1] [] world0 eq_refl).
  constructor; [passing_page|constructor].
Defined.

Lemma batch_extract_and_watch_returns_witness :
  ∃ r, (V2.batch_extract_and_watch E_slow 62 [] V2.EXTRACT_OPTIONS world0).1 = Ok r.
Proof.
  apply (batch_extract_and_watch_returns E_slow 62 [] V2.EXTRACT_OPTIONS world0).
  - apply clock60_advances.
  - vm_compute. discriminate.
  - reflexivity.
Defined.

Lemma failed_status_returns_none_witness :
  ∃ w',
    V2.batch_extract_and_watch E_job_fails 1 [] V2.EXTRACT_OPTIONS world0 = (Ok None, w')
    ∧ polls w' = 1.
Proof.
  exact (failed_status_returns_none E_job_fails 0 0 [] V2.EXTRACT_OPTIONS world0
           started_fields _ _ (status_demo "failed" 0 1)
           eq_refl eq_refl eq_refl eq_refl eq_refl).
Defined.

Lemma rejected_job_returns_none_witness :
  ∃ w',
    V2.batch_extract_and_watch E_crawl_failed 5 [] V2.EXTRACT_OPTIONS world0
      = (Ok None, w')
    ∧ polls w' = polls world0 ∧ fs w' = fs world0.
Proof.
  apply (rejected_job_returns_none E_crawl_failed 5 [] V2.EXTRACT_OPTIONS world0).
  exact I.
Defined.

Lemma poll_error_returns_none_witness :
  ∃ c w',
    V2.batch_extract_and_watch E_poll_raises 1 [] V2.EXTRACT_OPTIONS world0
      = (Ok None, w')
    ∧ polls w' = 1
    ∧ last (out w')
      = Some (LogEntry ERROR "Batch extraction failed with error: {str(e)}"
                [AExn (Exception c)]).
Proof.
  exact (poll_error_returns_none E_poll_raises 0 0 [] V2.EXTRACT_OPTIONS world0
           started_fields _ _ eq_refl eq_refl eq_refl I).
Defined.

Lemma stall_timer_follows_last_page_witness :
  clock60 1
  = if ((0 <? 4) && (4 =? 5 - 1))%Z then clock60 1
    else time_time E_last_page (ticks world_loop).
Proof.
  apply (stall_timer_follows_last_page E_last_page job_demo (clock60 0) (clock60 1)
           world_loop (status_demo "scraping" 4 5) 4 5 (clock60 1)
           (V2.poll_iteration E_last_page job_demo (clock60 0) (clock60 1) world_loop).2);
    [reflexivity | reflexivity | vm_compute; reflexivity].
Defined.

Lemma process_page_malformed_witness :
  V2.process_page repr0 PNone world0
  = (Ok None,
     with_out (λ o, o ++ [LogEntry ERROR "Failed to process page: {str(e)}"
                            [AExn (Exception AttributeError)]]) world0).
Proof. apply (process_page_malformed repr0 PNone world0). exact I. Defined.



Lemma main_v2_page_without_url_witness :
  ∃ c w',
    V2.main E_no_url repr0 1 world0 = (Raise (Exception c), w')
    ∧ fs w' = fs world0 ∧ polls w' = polls world0.
Proof.
  apply (main_v2_page_without_url E_no_url repr0 1 world0 crawl_no_url_fields
           [] (PDict page_bare_extract) []);
    first [reflexivity | constructor].
Defined.

Lemma main_v1_bad_metadata_witness :
  ∃ w', V1.main E_null_metadata repr0 world0 = (Raise (SystemExit 1), w')
        ∧ fs w' = fs world0.
Proof.
  apply (main_v1_bad_metadata E_null_metadata repr0 world0 crawl_null_metadata_fields
           [PDict page_markdown] page_null_metadata []);
    try reflexivity.
  constructor; [eexists; reflexivity | constructor].
Defined.

Lemma failed_crawl_ends_run_witness :
  (exit_code (V2.main E_crawl_failed repr0 1 world0).1 = Some 1%Z
   ∧ fs (V2.main E_crawl_failed repr0 1 world0).2 = fs world0)
  ∧ (exit_code (V1.main E_crawl_failed repr0 world0).1 = Some 1%Z
     ∧ fs (V1.main E_crawl_failed repr0 world0).2 = fs world0).
Proof.
  apply (failed_crawl_ends_run E_crawl_failed repr0 1 world0). reflexivity.
Defined.

Lemma main_v1_no_data_witness :
  ∃ w', V1.main E_empty_crawl repr0 world0 = (Raise (SystemExit 1), w')
        ∧ fs w' = fs world0.
Proof.
  apply (main_v1_no_data E_empty_crawl repr0 world0 crawl_empty_fields);
    reflexivity.
Defined.
